(** * The forum views of djbookru ([src/forum/views.py])

    A shallow embedding of the request handlers of the forum application.
    Handlers are functions in a state-and-exception monad over the store
    (database tables plus the presence cache and the flash messages).
    Everything the handlers import from modules that are not part of
    [views.py] (the model methods, the forms, the settings, the generic
    [object_list] view) is collected in the class [Models]; the handlers
    are written once, for every implementation of it. *)

From Stdlib Require Import ZArith List String Bool.
From stdpp Require Import gmap strings list fin_maps pretty sorting.

(** ** Data model *)

(** [request.user]: Django's [AnonymousUser] or a row of the user table. *)
Inductive RequestUser :=
| AnonymousUser
| User (pk : Z).

Definition is_authenticated (u : RequestUser) : bool :=
  match u with
  | AnonymousUser => false
  | User _ => true
  end.

(** [user.pk]; it is [None] for the anonymous user. *)
Definition user_pk (u : RequestUser) : option Z :=
  match u with
  | AnonymousUser => None
  | User pk => Some pk
  end.

Record Forum := {
  forum_pk : Z;
  forum_category_id : Z
}.

Record Topic := {
  topic_pk : Z;
  topic_forum_id : Z;
  topic_user_id : Z;
  views : Z;
  closed : bool;
  sticky : bool;
  heresy : bool;
  send_response : bool;
  topic_rating : Z;
  topic_votes : gset Z
}.

Record Post := {
  post_pk : Z;
  post_topic_id : Z;
  post_user_id : Z;
  created : Z;
  updated : option Z;
  updated_by : option Z;
  post_rating : Z;
  post_votes : gset Z
}.

(** The store: the tables, the read markers keyed by (user, topic), the two
    entries of the presence cache and the flash messages. *)
Record DB := {
  users : list Z;
  forums : gmap Z Forum;
  topics : gmap Z Topic;
  posts : gmap Z Post;
  read_markers : gmap (option Z * Z) Z;
  users_online : gmap Z Z;
  guests_online : gmap string Z;
  flash : list string
}.

Definition set_topics (f : gmap Z Topic -> gmap Z Topic) (db : DB) : DB :=
  {| users := users db; forums := forums db; topics := f (topics db);
     posts := posts db; read_markers := read_markers db;
     users_online := users_online db; guests_online := guests_online db;
     flash := flash db |}.

Definition set_posts (f : gmap Z Post -> gmap Z Post) (db : DB) : DB :=
  {| users := users db; forums := forums db; topics := topics db;
     posts := f (posts db); read_markers := read_markers db;
     users_online := users_online db; guests_online := guests_online db;
     flash := flash db |}.

Definition set_read_markers
    (f : gmap (option Z * Z) Z -> gmap (option Z * Z) Z) (db : DB) : DB :=
  {| users := users db; forums := forums db; topics := topics db;
     posts := posts db; read_markers := f (read_markers db);
     users_online := users_online db; guests_online := guests_online db;
     flash := flash db |}.

Definition add_flash (msg : string) (db : DB) : DB :=
  {| users := users db; forums := forums db; topics := topics db;
     posts := posts db; read_markers := read_markers db;
     users_online := users_online db; guests_online := guests_online db;
     flash := flash db ++ [msg] |}.

(** Field updates of the in-memory instances. *)
Definition with_views (v : Z) (t : Topic) : Topic :=
  {| topic_pk := topic_pk t; topic_forum_id := topic_forum_id t;
     topic_user_id := topic_user_id t; views := v; closed := closed t;
     sticky := sticky t; heresy := heresy t;
     send_response := send_response t; topic_rating := topic_rating t;
     topic_votes := topic_votes t |}.

Definition with_closed (b : bool) (t : Topic) : Topic :=
  {| topic_pk := topic_pk t; topic_forum_id := topic_forum_id t;
     topic_user_id := topic_user_id t; views := views t; closed := b;
     sticky := sticky t; heresy := heresy t;
     send_response := send_response t; topic_rating := topic_rating t;
     topic_votes := topic_votes t |}.

Definition with_sticky (b : bool) (t : Topic) : Topic :=
  {| topic_pk := topic_pk t; topic_forum_id := topic_forum_id t;
     topic_user_id := topic_user_id t; views := views t; closed := closed t;
     sticky := b; heresy := heresy t;
     send_response := send_response t; topic_rating := topic_rating t;
     topic_votes := topic_votes t |}.

Definition with_heresy (b : bool) (t : Topic) : Topic :=
  {| topic_pk := topic_pk t; topic_forum_id := topic_forum_id t;
     topic_user_id := topic_user_id t; views := views t; closed := closed t;
     sticky := sticky t; heresy := b;
     send_response := send_response t; topic_rating := topic_rating t;
     topic_votes := topic_votes t |}.

Definition with_send_response (b : bool) (t : Topic) : Topic :=
  {| topic_pk := topic_pk t; topic_forum_id := topic_forum_id t;
     topic_user_id := topic_user_id t; views := views t; closed := closed t;
     sticky := sticky t; heresy := heresy t;
     send_response := b; topic_rating := topic_rating t;
     topic_votes := topic_votes t |}.

Definition with_topic_rating (r : Z) (t : Topic) : Topic :=
  {| topic_pk := topic_pk t; topic_forum_id := topic_forum_id t;
     topic_user_id := topic_user_id t; views := views t; closed := closed t;
     sticky := sticky t; heresy := heresy t;
     send_response := send_response t; topic_rating := r;
     topic_votes := topic_votes t |}.

Definition with_topic_votes (s : gset Z) (t : Topic) : Topic :=
  {| topic_pk := topic_pk t; topic_forum_id := topic_forum_id t;
     topic_user_id := topic_user_id t; views := views t; closed := closed t;
     sticky := sticky t; heresy := heresy t;
     send_response := send_response t; topic_rating := topic_rating t;
     topic_votes := s |}.

Definition with_post_rating (r : Z) (p : Post) : Post :=
  {| post_pk := post_pk p; post_topic_id := post_topic_id p;
     post_user_id := post_user_id p; created := created p;
     updated := updated p; updated_by := updated_by p;
     post_rating := r; post_votes := post_votes p |}.

Definition with_post_votes (s : gset Z) (p : Post) : Post :=
  {| post_pk := post_pk p; post_topic_id := post_topic_id p;
     post_user_id := post_user_id p; created := created p;
     updated := updated p; updated_by := updated_by p;
     post_rating := post_rating p; post_votes := s |}.

Definition with_updated (t : Z) (u : option Z) (p : Post) : Post :=
  {| post_pk := post_pk p; post_topic_id := post_topic_id p;
     post_user_id := post_user_id p; created := created p;
     updated := Some t; updated_by := u;
     post_rating := post_rating p; post_votes := post_votes p |}.

(** ** Requests and responses *)

(** The [page] query parameter as the paginating views read it. *)
Inductive PageArg :=
| PageDefault
| PageNumber (n : Z)
| PageLast
| PageInvalid.

(** [now] is the instant the request is served: what [now()] returns. *)
Record Request := {
  user : RequestUser;
  method : string;
  POST : list (string * string);
  GET_page : PageArg;
  now : Z
}.

(** [request.POST or None]: an empty query dictionary is falsy. *)
Definition POST_or_None (request : Request) : option (list (string * string)) :=
  match POST request with
  | [] => None
  | d => Some d
  end.

Inductive QuerySet :=
| QTopics (l : list Topic)
| QPosts (l : list Post).

Inductive CtxVal :=
| VNone
| VInt (z : Z)
| VBool (b : bool)
| VForm (data : option (list (string * string)))
| VForum (f : Forum)
| VTopic (t : Topic)
| VTopics (l : list Topic)
| VUsers (l : list Z)
| VCategories (l : list Z)
| VPaginator (count num_pages : nat).

Inductive Target :=
| ToIndex
| ToForum (pk : Z)
| ToTopic (pk : Z)
| ToPost (pk : Z)
| ToLogin.

Inductive JsonVal :=
| JInt (z : Z)
| JBool (b : bool).

Inductive Response :=
| TemplateResponse (template : string) (context : list (string * CtxVal))
| Redirect (to : Target)
| JsonResponse (body : list (string * JsonVal))
| HttpResponse (content content_type : string).

(** The exceptions a handler can leave with. *)
Inductive Exn :=
| Http404
| PermissionDenied
| IndexError
| DoesNotExist.

(** What the framework makes of a handler's result. *)
Inductive Outcome :=
| Served (r : Response)
| NotFound
| Forbidden
| ServerError.

Definition outcome (r : Exn + Response) : Outcome :=
  match r with
  | inr resp => Served resp
  | inl Http404 => NotFound
  | inl PermissionDenied => Forbidden
  | inl _ => ServerError
  end.

(** ** The handler monad: store passing with exceptions *)

Definition M (A : Type) : Type := DB -> DB * (Exn + A).

Definition ret {A} (a : A) : M A := fun db => (db, inr a).

Definition raise {A} (e : Exn) : M A := fun db => (db, inl e).

Definition bind {A B} (m : M A) (k : A -> M B) : M B :=
  fun db =>
    match m db with
    | (db', inr a) => k a db'
    | (db', inl e) => (db', inl e)
    end.

(** A read of the store, and a write to it. *)
Definition query {A} (q : DB -> A) : M A := fun db => (db, inr (q db)).

Definition execute (f : DB -> DB) : M unit := fun db => (f db, inr tt).

Global Instance Exn_eq_dec : EqDecision Exn.
Proof. solve_decision. Defined.

(** [try: m except e: h]: only the named exception is handled. *)
Definition try_except {A} (m : M A) (e : Exn) (h : M A) : M A :=
  fun db =>
    match m db with
    | (db', inl e') => if decide (e' = e) then h db' else (db', inl e')
    | r => r
    end.

Declare Scope handler_scope.
Delimit Scope handler_scope with handler.
Notation "x <- m ;; k" := (bind m (fun x => k))
  (at level 100, m at next level, right associativity) : handler_scope.
Notation "m ;;; k" := (bind m (fun _ => k))
  (at level 100, right associativity) : handler_scope.

(** The store after running a handler, and its result. *)
Definition store_after {A} (m : M A) (db : DB) : DB := fst (m db).
Definition result_of {A} (m : M A) (db : DB) : Exn + A := snd (m db).

Fixpoint for_each {A} (l : list A) (body : A -> M unit) : M unit :=
  match l with
  | [] => ret tt
  | a :: l' => bind (body a) (fun _ => for_each l' body)
  end.

Definition lift {A} (r : Exn + A) : M A := fun db => (db, r).

(** A store transformer that hands back a value. *)
Definition run {A} (f : DB -> DB * A) : M A :=
  fun db => let '(db', a) := f db in (db', inr a).

(** ** What [views.py] imports from the rest of the repository

    [src.forum.models], [src.forum.forms], [src.forum.settings] and
    [src.utils.views] are not part of the sources.  The permission
    predicates read the store and the instance they are called on; the
    forms validate the submitted data and save; [object_list] paginates
    and renders, or raises. *)
Class Models := {
  TOPICS_ON_PAGE : nat;
  POSTS_ON_PAGE : nat;
  Category_for_user : DB -> RequestUser -> list Z;
  Forum_has_access : DB -> Forum -> RequestUser -> bool;
  Forum_can_post : DB -> Forum -> RequestUser -> bool;
  Topic_has_access : DB -> Topic -> RequestUser -> bool;
  Topic_can_post : DB -> Topic -> RequestUser -> bool;
  Topic_can_edit : DB -> Topic -> RequestUser -> bool;
  Topic_can_delete : DB -> Topic -> RequestUser -> bool;
  Post_has_access : DB -> Post -> RequestUser -> bool;
  Post_can_edit : DB -> Post -> RequestUser -> bool;
  Post_can_delete : DB -> Post -> RequestUser -> bool;
  (** [Topic.delete] and [Post.delete]: what goes with the row (the Posts
      of the Topic, the emptied Topic of the Post) is the model's
      business. *)
  Topic_delete : Topic -> DB -> DB;
  Post_delete : Post -> DB -> DB;
  (** The rating as a function of the vote membership. *)
  rating_policy : gset Z -> Z;
  AddTopicForm_is_valid :
    DB -> Forum -> RequestUser -> list (string * string) -> bool;
  AddTopicForm_save :
    Forum -> RequestUser -> list (string * string) -> DB -> DB * Topic;
  AddPostForm_is_valid :
    DB -> Topic -> RequestUser -> list (string * string) -> bool;
  AddPostForm_save :
    Topic -> RequestUser -> list (string * string) -> DB -> DB * Post;
  EditPostForm_is_valid : DB -> Post -> list (string * string) -> bool;
  EditPostForm_save : Post -> list (string * string) -> Post;
  MoveTopicForm_is_valid : DB -> Topic -> list (string * string) -> bool;
  MoveTopicForm_save : Topic -> list (string * string) -> DB -> DB;
  object_list :
    Request -> QuerySet -> nat -> string -> list (string * CtxVal) ->
    Exn + Response;
  extract_year_month : Z -> Z * Z;
  render_chart :
    string -> list string -> string -> list (Z * string) -> string
}.

(** ** Django helpers *)

Definition get_object_or_404 {A} (table : DB -> gmap Z A) (pk : Z) : M A :=
  fun db =>
    match table db !! pk with
    | Some a => (db, inr a)
    | None => (db, inl Http404)
    end.

(** [get_object_or_404(Model, pk=pk, user=request.user)]. *)
Definition get_object_or_404_where {A} (table : DB -> gmap Z A)
    (cond : A -> bool) (pk : Z) : M A :=
  fun db =>
    match table db !! pk with
    | Some a => if cond a then (db, inr a) else (db, inl Http404)
    | None => (db, inl Http404)
    end.

(** [Model.objects.get(pk=...)]. *)
Definition objects_get {A} (table : DB -> gmap Z A) (pk : Z) : M A :=
  fun db =>
    match table db !! pk with
    | Some a => (db, inr a)
    | None => (db, inl DoesNotExist)
    end.

(** The decorator: anonymous requests are sent to the login page and the
    view is not entered. *)
Definition login_required (request : Request) (view : M Response)
    : M Response :=
  if is_authenticated (user request) then view else ret (Redirect ToLogin).

(** The rows of a table, in storage order. *)
Definition rows {A} (table : gmap Z A) : list A := (map_to_list table).*2.

(** [topic.save()]. *)
Definition Topic_save (topic : Topic) : M unit :=
  execute (set_topics <[topic_pk topic := topic]>).

Definition Post_save (post : Post) : M unit :=
  execute (set_posts <[post_pk post := post]>).

(** Following the foreign keys [topic.forum] and [post.topic]: a lookup in
    the store as it is when the attribute is read. *)
Definition Topic_forum (topic : Topic) : M Forum :=
  objects_get forums (topic_forum_id topic).

Definition Post_topic (post : Post) : M Topic :=
  objects_get topics (post_topic_id post).

(** [forum.topics.all()], [topic.posts.all()]. *)
Definition Forum_topics (forum : Forum) (db : DB) : list Topic :=
  filter (fun t => topic_forum_id t = forum_pk forum) (rows (topics db)).

Definition Topic_posts (topic : Topic) (db : DB) : list Post :=
  filter (fun p => post_topic_id p = topic_pk topic) (rows (posts db)).

(** A stable insertion sort, for [order_by]. *)
Fixpoint insert_by {A} (le : A -> A -> bool) (x : A) (l : list A) : list A :=
  match l with
  | [] => [x]
  | y :: l' => if le x y then x :: l else y :: insert_by le x l'
  end.

Definition order_by {A} (le : A -> A -> bool) (l : list A) : list A :=
  foldr (insert_by le) [] l.

(** [django.core.paginator.Paginator]; [_count] is the cached count the
    unread view overwrites. *)
Record Paginator := {
  paginator_object_list : list Topic;
  per_page : nat;
  _count : option nat
}.

Definition paginator_count (p : Paginator) : nat :=
  match _count p with
  | Some c => c
  | None => length (paginator_object_list p)
  end.

Definition num_pages (p : Paginator) : nat :=
  let hits := Nat.max 1 (paginator_count p) in
  (hits + per_page p - 1) / per_page p.

Definition paginator_page (p : Paginator) (number : Z) : Exn + list Topic :=
  if (number <? 1)%Z then inl Http404
  else if (Z.of_nat (num_pages p) <? number)%Z && negb (number =? 1)%Z
  then inl Http404
  else
    let bottom := (Z.to_nat number - 1) * per_page p in
    let top := bottom + per_page p in
    let top := if paginator_count p <=? top then paginator_count p else top in
    inr (take (top - bottom) (drop bottom (paginator_object_list p))).

(** [ListView.get] with [paginate_by] set; [get_paginator] is the hook the
    unread view overrides. *)
Definition ListView_get (request : Request) (template_name : string)
    (paginate_by : nat) (queryset : list Topic)
    (get_paginator : list Topic -> nat -> M Paginator) : M Response :=
  match paginate_by with
  | O =>
      ret (TemplateResponse template_name
             [("paginator", VNone); ("is_paginated", VBool false);
              ("object_list", VTopics queryset)])
  | _ =>
      bind (get_paginator queryset paginate_by) (fun paginator =>
      bind (match GET_page request with
            | PageDefault => ret 1%Z
            | PageNumber n => ret n
            | PageLast => ret (Z.of_nat (num_pages paginator))
            | PageInvalid => raise Http404
            end) (fun page_number =>
      bind (lift (paginator_page paginator page_number)) (fun page =>
      ret (TemplateResponse template_name
             [("paginator",
               VPaginator (paginator_count paginator) (num_pages paginator));
              ("is_paginated", VBool (1 <? num_pages paginator));
              ("object_list", VTopics page)]))))
  end.

Definition default_get_paginator (queryset : list Topic) (page_size : nat)
    : M Paginator :=
  ret {| paginator_object_list := queryset; per_page := page_size;
         _count := None |}.

(** The votable models, [Topic] and [Post]: the [model] argument of the
    vote view and the instances it loads. *)
Inductive VotableModel :=
| TopicModel
| PostModel.

Inductive Votable :=
| ATopic (t : Topic)
| APost (p : Post).

Definition get_votable_or_404 (model : VotableModel) (pk : Z) : M Votable :=
  match model with
  | TopicModel => bind (get_object_or_404 topics pk) (fun t => ret (ATopic t))
  | PostModel => bind (get_object_or_404 posts pk) (fun p => ret (APost p))
  end.

(** The related manager [obj.votes]: the membership rows in the store. *)
Definition votes (obj : Votable) (db : DB) : gset Z :=
  match obj with
  | ATopic t => from_option topic_votes ∅ (topics db !! topic_pk t)
  | APost p => from_option post_votes ∅ (posts db !! post_pk p)
  end.

Definition votes_update (f : gset Z -> gset Z) (obj : Votable) : M unit :=
  execute
    match obj with
    | ATopic t =>
        set_topics (alter (fun r => with_topic_votes (f (topic_votes r)) r)
                      (topic_pk t))
    | APost p =>
        set_posts (alter (fun r => with_post_votes (f (post_votes r)) r)
                     (post_pk p))
    end.

(** [obj.votes.filter(pk=...).exists()], [obj.votes.add], [obj.votes.remove]. *)
Definition votes_exists (obj : Votable) (upk : Z) : M bool :=
  query (fun db => bool_decide (upk ∈ votes obj db)).

Definition votes_add (obj : Votable) (upk : Z) : M unit :=
  votes_update (fun s => s ∪ {[upk]}) obj.

Definition votes_remove (obj : Votable) (upk : Z) : M unit :=
  votes_update (fun s => s ∖ {[upk]}) obj.

Definition rating (obj : Votable) : Z :=
  match obj with
  | ATopic t => topic_rating t
  | APost p => post_rating p
  end.

Section Views.
Context `{Models}.
Local Open Scope handler_scope.

(** ** Model methods the handlers call *)

Definition has_access (obj : Votable) (u : RequestUser) : M bool :=
  query (fun db =>
    match obj with
    | ATopic t => Topic_has_access db t u
    | APost p => Post_has_access db p u
    end).

(** Modelled from the spec: [update_rating] of the Topic and Post models
    (src/forum/models.py is not part of the sources).  It recomputes the
    rating as a function of the current vote membership, persists it and
    leaves it on the instance. *)
Definition update_rating (obj : Votable) : M Votable :=
  fun db =>
    let r := rating_policy (votes obj db) in
    match obj with
    | ATopic t =>
        (set_topics (alter (with_topic_rating r) (topic_pk t)) db,
         inr (ATopic (with_topic_rating r t)))
    | APost p =>
        (set_posts (alter (with_post_rating r) (post_pk p)) db,
         inr (APost (with_post_rating r p)))
    end.

(** Modelled from the spec: the six flag setters of the Topic model
    (src/forum/models.py is not part of the sources).  Each sets its own
    flag on the instance and persists the instance. *)
Definition mark_heresy (topic : Topic) : M unit :=
  Topic_save (with_heresy true topic).

Definition unmark_heresy (topic : Topic) : M unit :=
  Topic_save (with_heresy false topic).

Definition close (topic : Topic) : M unit :=
  Topic_save (with_closed true topic).

Definition open (topic : Topic) : M unit :=
  Topic_save (with_closed false topic).

Definition stick (topic : Topic) : M unit :=
  Topic_save (with_sticky true topic).

Definition unstick (topic : Topic) : M unit :=
  Topic_save (with_sticky false topic).

(** Modelled from the spec: [Topic.mark_visited_for]
    (src/forum/models.py is not part of the sources).  It upserts the read
    marker of (user, topic) to the current time. *)
Definition mark_visited_for (t : Z) (topic : Topic) (u : RequestUser)
    : M unit :=
  execute (set_read_markers <[(user_pk u, topic_pk topic) := t]>).

(** Modelled from the spec: [Forum.mark_read]
    (src/forum/models.py is not part of the sources).  It upserts the read
    marker of every Topic of the forum the user can access. *)
Definition mark_read (t : Z) (forum : Forum) (u : RequestUser) : M unit :=
  bind (query (Forum_topics forum)) (fun ts =>
  for_each ts (fun topic =>
    ha <- query (fun db => Topic_has_access db topic u) ;;
    if ha then mark_visited_for t topic u else ret tt)).

(** The time of the last post of a topic, if it has one. *)
Definition last_post_time (db : DB) (topic : Topic) : option Z :=
  foldr (fun p acc =>
           match acc with
           | Some m => Some (Z.max (created p) m)
           | None => Some (created p)
           end) None (Topic_posts topic db).

(** Modelled from the spec: the unread predicate of the read tracker
    (src/forum/models.py is not part of the sources).  A Topic is unread
    for a user if no marker exists or the marker predates the Topic's last
    post; only Topics the user can access count. *)
Definition is_unread (db : DB) (u : RequestUser) (topic : Topic) : bool :=
  match read_markers db !! (user_pk u, topic_pk topic) with
  | None => true
  | Some seen =>
      match last_post_time db topic with
      | Some t => (seen <? t)%Z
      | None => false
      end
  end.

(** Modelled from the spec: [Topic.objects.unread]
    (src/forum/models.py is not part of the sources): the Topics with no
    marker or a stale marker for the user, access-filtered; a fresh query
    each time. *)
Definition Topic_objects_unread (u : RequestUser) (db : DB) : list Topic :=
  filter (fun topic => is_unread db u topic && Topic_has_access db topic u)
    (rows (topics db)).

(** Modelled from the spec: [Topic.objects.unread_count]
    (src/forum/models.py is not part of the sources): one aggregate count
    with the predicate of [unread], computed by a counting query of its
    own and not by exhausting the sequence. *)
Definition Topic_objects_unread_count (u : RequestUser) (db : DB) : nat :=
  map_fold (fun _ topic n =>
              if Topic_has_access db topic u
              then (if is_unread db u topic then S n else n)
              else n) 0 (topics db).

(** [Form.is_valid]: an unbound form is never valid. *)
Definition is_valid (validate : list (string * string) -> bool)
    (data : option (list (string * string))) : bool :=
  match data with
  | Some d => validate d
  | None => false
  end.

Definition object_list_view (request : Request) (qs : QuerySet)
    (paginate_by : nat) (template_name : string)
    (extra_context : list (string * CtxVal)) : M Response :=
  lift (object_list request qs paginate_by template_name extra_context).

(** ** The handlers *)

Definition index (request : Request) : M Response :=
  users_cached <- query users_online ;;
  online <- query (fun db =>
              filter (fun u => is_Some (users_cached !! u)) (users db)) ;;
  guests_cached <- query guests_online ;;
  categories <- query (fun db => Category_for_user db (user request)) ;;
  users_count <- query (fun db => length (users db)) ;;
  topics_count <- query (fun db => size (topics db)) ;;
  posts_count <- query (fun db => size (posts db)) ;;
  ret (TemplateResponse "djforum/index.html"
         [("categories", VCategories categories);
          ("users_online", VUsers online);
          ("online_count", VInt (Z.of_nat (length online)));
          ("guest_count", VInt (Z.of_nat (size guests_cached)));
          ("users_count", VInt (Z.of_nat users_count));
          ("topics_count", VInt (Z.of_nat topics_count));
          ("posts_count", VInt (Z.of_nat posts_count))]).

Definition forum_page (request : Request) (pk : Z) : M Response :=
  forum <- get_object_or_404 forums pk ;;
  ha <- query (fun db => Forum_has_access db forum (user request)) ;;
  if negb ha then raise Http404 else
  qs <- query (Forum_topics forum) ;;
  object_list_view request (QTopics qs) TOPICS_ON_PAGE "djforum/forum.html"
    [("forum", VForum forum)].

Definition topic_page (request : Request) (pk : Z) : M Response :=
  let user := user request in
  topic <- get_object_or_404 topics pk ;;
  ha <- query (fun db => Topic_has_access db topic user) ;;
  if negb ha then raise Http404 else
  execute (set_topics (alter (fun r => with_views (views r + 1) r) pk)) ;;;
  qs <- query (Topic_posts topic) ;;
  cp <- query (fun db => Topic_can_post db topic user) ;;
  let form := if cp then VForm None else VNone in
  mark_visited_for (now request) topic user ;;;
  forum <- Topic_forum topic ;;
  ha' <- query (fun db => Topic_has_access db topic user) ;;
  object_list_view request (QPosts qs) POSTS_ON_PAGE "djforum/topic.html"
    [("form", form); ("forum", VForum forum); ("topic", VTopic topic);
     ("has_access", VBool ha')].

(** [UnreadView]: the list is [unread], the paginator's count is replaced
    by [unread_count]. *)
Definition UnreadView_get_queryset (request : Request) : M (list Topic) :=
  query (Topic_objects_unread (user request)).

Definition UnreadView_get_paginator (request : Request)
    (queryset : list Topic) (page_size : nat) : M Paginator :=
  paginator <- default_get_paginator queryset page_size ;;
  count <- query (Topic_objects_unread_count (user request)) ;;
  ret {| paginator_object_list := paginator_object_list paginator;
         per_page := per_page paginator; _count := Some count |}.

Definition unread_topics (request : Request) : M Response :=
  login_required request (
    queryset <- UnreadView_get_queryset request ;;
    ListView_get request "djforum/unread_topics.html" TOPICS_ON_PAGE queryset
      (UnreadView_get_paginator request)).

Definition mark_read_all (request : Request) : M Response :=
  login_required request (
    all <- query (fun db => rows (forums db)) ;;
    for_each all (fun forum =>
      ha <- query (fun db => Forum_has_access db forum (user request)) ;;
      if ha then mark_read (now request) forum (user request) else ret tt) ;;;
    ret (Redirect ToIndex)).

Definition mark_read_forum (request : Request) (pk : Z) : M Response :=
  login_required request (
    forum <- get_object_or_404 forums pk ;;
    ha <- query (fun db => Forum_has_access db forum (user request)) ;;
    (if ha then mark_read (now request) forum (user request) else ret tt) ;;;
    ret (Redirect (ToForum (forum_pk forum)))).

Definition MyTopicsView_get_queryset (request : Request) : M (list Topic) :=
  query (fun db =>
    filter (fun t => Some (topic_user_id t) = user_pk (user request))
      (rows (topics db))).

Definition my_topics (request : Request) : M Response :=
  login_required request (
    queryset <- MyTopicsView_get_queryset request ;;
    ListView_get request "djforum/my_topics.html" TOPICS_ON_PAGE queryset
      default_get_paginator).

Definition add_topic (request : Request) (pk : Z) : M Response :=
  login_required request (
    forum <- get_object_or_404 forums pk ;;
    ha <- query (fun db => Forum_has_access db forum (user request)) ;;
    if negb ha then raise Http404 else
    cp <- query (fun db => Forum_can_post db forum (user request)) ;;
    if negb cp then
      execute (add_flash
        "You have no permission to add new topic. Maybe you need to approve your email.") ;;;
      ret (Redirect (ToForum (forum_pk forum)))
    else
    let data := POST_or_None request in
    valid <- query (fun db =>
               is_valid (AddTopicForm_is_valid db forum (user request)) data) ;;
    match data, valid with
    | Some d, true =>
        topic <- run (AddTopicForm_save forum (user request) d) ;;
        ret (Redirect (ToTopic (topic_pk topic)))
    | _, _ =>
        ret (TemplateResponse "djforum/add_topic.html"
               [("form", VForm data); ("forum", VForum forum)])
    end).

Definition move_topic (request : Request) (pk : Z) : M Response :=
  login_required request (
    topic <- get_object_or_404 topics pk ;;
    ce <- query (fun db => Topic_can_edit db topic (user request)) ;;
    if negb ce then raise Http404 else
    let data := POST_or_None request in
    valid <- query (fun db => is_valid (MoveTopicForm_is_valid db topic) data) ;;
    match data, valid with
    | Some d, true =>
        execute (MoveTopicForm_save topic d) ;;;
        ret (Redirect (ToTopic (topic_pk topic)))
    | _, _ =>
        forum <- Topic_forum topic ;;
        ret (TemplateResponse "djforum/move_topic.html"
               [("form", VForm data); ("topic", VTopic topic);
                ("forum", VForum forum)])
    end).

Definition add_post (request : Request) (pk : Z) : M Response :=
  login_required request (
    topic <- get_object_or_404 topics pk ;;
    ha <- query (fun db => Topic_has_access db topic (user request)) ;;
    if negb ha then raise Http404 else
    let data := POST_or_None request in
    valid <- query (fun db =>
               is_valid (AddPostForm_is_valid db topic (user request)) data) ;;
    match data, valid with
    | Some d, true =>
        post <- run (AddPostForm_save topic (user request) d) ;;
        ret (Redirect (ToPost (post_pk post)))
    | _, _ =>
        forum <- Topic_forum topic ;;
        ret (TemplateResponse "djforum/add_post.html"
               [("form", VForm data); ("topic", VTopic topic);
                ("forum", VForum forum)])
    end).

Definition edit_post (request : Request) (pk : Z) : M Response :=
  login_required request (
    post <- get_object_or_404 posts pk ;;
    ce <- query (fun db => Post_can_edit db post (user request)) ;;
    if negb ce then
      execute (add_flash "You have no permission edit this post") ;;;
      topic <- Post_topic post ;;
      ret (Redirect (ToTopic (topic_pk topic)))
    else
    let data := POST_or_None request in
    valid <- query (fun db => is_valid (EditPostForm_is_valid db post) data) ;;
    match data, valid with
    | Some d, true =>
        let post := EditPostForm_save post d in
        let post := with_updated (now request) (user_pk (user request)) post in
        Post_save post ;;;
        ret (Redirect (ToPost (post_pk post)))
    | _, _ =>
        topic <- Post_topic post ;;
        forum <- Topic_forum topic ;;
        ret (TemplateResponse "djforum/edit_post.html"
               [("form", VForm data); ("topic", VTopic topic);
                ("forum", VForum forum)])
    end).

Definition owned_by (u : RequestUser) (topic : Topic) : bool :=
  bool_decide (Some (topic_user_id topic) = user_pk u).

Definition subscribe (request : Request) (pk : Z) : M Response :=
  login_required request (
    topic <- get_object_or_404_where topics (owned_by (user request)) pk ;;
    let topic := with_send_response true topic in
    Topic_save topic ;;;
    ret (Redirect (ToTopic (topic_pk topic)))).

Definition unsubscribe (request : Request) (pk : Z) : M Response :=
  login_required request (
    topic <- get_object_or_404_where topics (owned_by (user request)) pk ;;
    let topic := with_send_response false topic in
    Topic_save topic ;;;
    ret (Redirect (ToTopic (topic_pk topic)))).

Definition heresy_unheresy_topic (request : Request) (pk : Z) : M Response :=
  login_required request (
    topic <- get_object_or_404 topics pk ;;
    ce <- query (fun db => Topic_can_edit db topic (user request)) ;;
    if negb ce then raise PermissionDenied else
    (if heresy topic then unmark_heresy topic else mark_heresy topic) ;;;
    ret (Redirect (ToTopic (topic_pk topic)))).

Definition close_open_topic (request : Request) (pk : Z) : M Response :=
  login_required request (
    topic <- get_object_or_404 topics pk ;;
    ce <- query (fun db => Topic_can_edit db topic (user request)) ;;
    if negb ce then raise PermissionDenied else
    (if closed topic then open topic else close topic) ;;;
    ret (Redirect (ToTopic (topic_pk topic)))).

Definition stick_unstick_topic (request : Request) (pk : Z) : M Response :=
  login_required request (
    topic <- get_object_or_404 topics pk ;;
    ce <- query (fun db => Topic_can_edit db topic (user request)) ;;
    if negb ce then raise PermissionDenied else
    (if sticky topic then unstick topic else stick topic) ;;;
    ret (Redirect (ToTopic (topic_pk topic)))).

Definition delete_topic (request : Request) (pk : Z) : M Response :=
  login_required request (
    topic <- get_object_or_404 topics pk ;;
    cd <- query (fun db => Topic_can_delete db topic (user request)) ;;
    if negb cd then raise PermissionDenied else
    (if String.eqb (method request) "POST" then execute (Topic_delete topic)
     else ret tt) ;;;
    forum <- Topic_forum topic ;;
    ret (Redirect (ToForum (forum_pk forum)))).

Definition delete_post (request : Request) (pk : Z) : M Response :=
  login_required request (
    post <- get_object_or_404 posts pk ;;
    cd <- query (fun db => Post_can_delete db post (user request)) ;;
    if negb cd then raise PermissionDenied else
    execute (Post_delete post) ;;;
    try_except
      (topic <- objects_get topics (post_topic_id post) ;;
       ret (Redirect (ToTopic (topic_pk topic))))
      DoesNotExist
      (topic <- Post_topic post ;;
       forum <- Topic_forum topic ;;
       ret (Redirect (ToForum (forum_pk forum))))).

Definition vote (request : Request) (pk : Z) (model : VotableModel)
    : M Response :=
  let user := user request in
  obj <- get_votable_or_404 model pk ;;
  match user with
  | AnonymousUser => raise PermissionDenied
  | User upk =>
      ha <- has_access obj user ;;
      if negb ha then raise PermissionDenied else
      already <- votes_exists obj upk ;;
      voted <- (if already
                then votes_remove obj upk ;;; ret false
                else votes_add obj upk ;;; ret true) ;;
      obj <- update_rating obj ;;
      ret (JsonResponse [("rating", JInt (rating obj));
                         ("voted", JBool voted)])
  end.

(** [annotate(Count(...))] on the users, and the top ten of an ordering. *)
Definition forum_posts__count (db : DB) (u : Z) : nat :=
  length (filter (fun p => post_user_id p = u) (rows (posts db))).

Definition forum_topics__count (db : DB) (u : Z) : nat :=
  length (filter (fun t => topic_user_id t = u) (rows (topics db))).

Definition top10_by {A} (key : A -> Z) (l : list A) : list A :=
  take 10 (order_by (fun a b => (key b <=? key a)%Z) l).

Definition statistic (request : Request) : M Response :=
  most_active_users <- query (fun db =>
    top10_by (fun u => Z.of_nat (forum_posts__count db u)) (users db)) ;;
  most_topics_users <- query (fun db =>
    top10_by (fun u => Z.of_nat (forum_topics__count db u)) (users db)) ;;
  active_users_count <- query (fun db =>
    length (filter (fun u => forum_posts__count db u ≠ 0) (users db))) ;;
  topics_count <- query (fun db => size (topics db)) ;;
  posts_count <- query (fun db => size (posts db)) ;;
  by_created <- query (fun db =>
    order_by (fun a b => (created a <=? created b)%Z) (rows (posts db))) ;;
  first_post <- match by_created with
                | p :: _ => ret p
                | [] => raise IndexError
                end ;;
  views_count <- query (fun db =>
    match rows (topics db) with
    | [] => VNone
    | ts => VInt (foldr (fun t acc => (views t + acc)%Z) 0%Z ts)
    end) ;;
  most_viewed_topics <- query (fun db => top10_by views (rows (topics db))) ;;
  ret (TemplateResponse "djforum/statistic.html"
         [("active_users_count", VInt (Z.of_nat active_users_count));
          ("topics_count", VInt (Z.of_nat topics_count));
          ("posts_count", VInt (Z.of_nat posts_count));
          ("first_post_created", VInt (created first_post));
          ("views_count", views_count);
          ("most_viewed_topics", VTopics most_viewed_topics);
          ("most_active_users", VUsers most_active_users);
          ("most_topics_users", VUsers most_topics_users)]).

(** Grouping by (year, month), counted and ordered by year, then month. *)
Definition month_before (a b : Z * Z) : bool :=
  (a.1 <? b.1)%Z || ((a.1 =? b.1)%Z && (a.2 <? b.2)%Z).

Fixpoint count_month (key : Z * Z) (l : list (Z * Z * Z)) : list (Z * Z * Z) :=
  match l with
  | [] => [(key, 1%Z)]
  | (k, n) :: l' =>
      if decide (k = key) then (k, (n + 1)%Z) :: l'
      else if month_before key k then (key, 1%Z) :: l
      else (k, n) :: count_month key l'
  end.

Definition month_label (item : Z * Z * Z) : string :=
  pretty item.1.2 +:+ "." +:+ pretty item.1.1.

Definition posts_per_month_chart (request : Request) : M Response :=
  posts_per_month <- query (fun db =>
    foldr (fun p acc => count_month (extract_year_month (created p)) acc) []
      (rows (posts db))) ;;
  let x_labels := month_label <$> posts_per_month in
  let data := (fun item => (item.2, month_label item)) <$> posts_per_month in
  let content := render_chart "Posts per month" x_labels "Posts count" data in
  ret (HttpResponse content "image/svg+xml").

(** The views of the module, and the handler behind each. *)
Inductive View :=
| IndexView
| ForumPageView (pk : Z)
| TopicPageView (pk : Z)
| UnreadTopicsView
| MarkReadAllView
| MarkReadForumView (pk : Z)
| MyTopicsView
| AddTopicView (pk : Z)
| MoveTopicView (pk : Z)
| AddPostView (pk : Z)
| EditPostView (pk : Z)
| SubscribeView (pk : Z)
| UnsubscribeView (pk : Z)
| HeresyView (pk : Z)
| CloseOpenView (pk : Z)
| StickView (pk : Z)
| DeleteTopicView (pk : Z)
| DeletePostView (pk : Z)
| VoteView (pk : Z) (model : VotableModel)
| StatisticView
| ChartView.

Definition handle (v : View) (request : Request) : M Response :=
  match v with
  | IndexView => index request
  | ForumPageView pk => forum_page request pk
  | TopicPageView pk => topic_page request pk
  | UnreadTopicsView => unread_topics request
  | MarkReadAllView => mark_read_all request
  | MarkReadForumView pk => mark_read_forum request pk
  | MyTopicsView => my_topics request
  | AddTopicView pk => add_topic request pk
  | MoveTopicView pk => move_topic request pk
  | AddPostView pk => add_post request pk
  | EditPostView pk => edit_post request pk
  | SubscribeView pk => subscribe request pk
  | UnsubscribeView pk => unsubscribe request pk
  | HeresyView pk => heresy_unheresy_topic request pk
  | CloseOpenView pk => close_open_topic request pk
  | StickView pk => stick_unstick_topic request pk
  | DeleteTopicView pk => delete_topic request pk
  | DeletePostView pk => delete_post request pk
  | VoteView pk model => vote request pk model
  | StatisticView => statistic request
  | ChartView => posts_per_month_chart request
  end.

(** The three moderation toggles, by the flag they act on. *)
Inductive Flag :=
| Heresy
| Closed
| Sticky.

Definition toggle (f : Flag) : Request -> Z -> M Response :=
  match f with
  | Heresy => heresy_unheresy_topic
  | Closed => close_open_topic
  | Sticky => stick_unstick_topic
  end.

Definition flag (f : Flag) : Topic -> bool :=
  match f with
  | Heresy => heresy
  | Closed => closed
  | Sticky => sticky
  end.

End Views.

(** ** Vocabulary of the statements *)

Definition obj_pk (obj : Votable) : Z :=
  match obj with
  | ATopic t => topic_pk t
  | APost p => post_pk p
  end.

Definition model_of (obj : Votable) : VotableModel :=
  match obj with
  | ATopic _ => TopicModel
  | APost _ => PostModel
  end.

Definition obj_votes (obj : Votable) : gset Z :=
  match obj with
  | ATopic t => topic_votes t
  | APost p => post_votes p
  end.

(** The entity is the row the store holds under its key. *)
Definition stored (obj : Votable) (db : DB) : Prop :=
  match obj with
  | ATopic t => topics db !! topic_pk t = Some t
  | APost p => posts db !! post_pk p = Some p
  end.

Definition accessible `{Models} (db : DB) (obj : Votable) (u : RequestUser)
    : bool :=
  match obj with
  | ATopic t => Topic_has_access db t u
  | APost p => Post_has_access db p u
  end.

(** The membership after one toggle by a user. *)
Definition toggle_vote (upk : Z) (s : gset Z) : gset Z :=
  if decide (upk ∈ s) then s ∖ {[upk]} else s ∪ {[upk]}.

(** The entity with the membership [s] and the rating recomputed from it. *)
Definition revoted `{Models} (s : gset Z) (obj : Votable) : Votable :=
  match obj with
  | ATopic t =>
      ATopic (with_topic_rating (rating_policy s) (with_topic_votes s t))
  | APost p =>
      APost (with_post_rating (rating_policy s) (with_post_votes s p))
  end.

(** The store with the row of the entity replaced. *)
Definition put (obj : Votable) (db : DB) : DB :=
  match obj with
  | ATopic t => set_topics <[topic_pk t := t]> db
  | APost p => set_posts <[post_pk p := p]> db
  end.

(** What a vote request answers: the rating and the voted state. *)
Definition vote_body (r : Z) (voted : bool) : Response :=
  JsonResponse [("rating", JInt r); ("voted", JBool voted)].

(** The store a view of a visible topic leaves: one more view on the row
    ([counted]), and the viewer's read marker at the time of the request. *)
Definition counted (t : Topic) (db : DB) : DB :=
  set_topics <[topic_pk t := with_views (views t + 1) t]> db.

Definition viewed (request : Request) (t : Topic) (db : DB) : DB :=
  set_read_markers <[(user_pk (user request), topic_pk t) := now request]>
    (counted t db).

(** A handler that leaves the store as it found it, whatever it answers. *)
Definition read_only {A} (m : M A) : Prop :=
  forall db, store_after m db = db.

(** The topic with one flag set. *)
Definition with_flag (f : Flag) (b : bool) (t : Topic) : Topic :=
  match f with
  | Heresy => with_heresy b t
  | Closed => with_closed b t
  | Sticky => with_sticky b t
  end.

(** ** A concrete forum

    A public forum (1) and a staff forum (2) only user 1 may see; user 1
    moderates.  The rating is the number of votes.  Deleting the last Post
    of a Topic deletes the Topic. *)
Module Example.

Definition staff (u : RequestUser) : bool :=
  match u with
  | User 1 => true
  | _ => false
  end.

Definition forum_visible (forum_id : Z) (u : RequestUser) : bool :=
  if decide (forum_id = 2%Z) then staff u else true.

Definition delete_topic_row (topic : Topic) (db : DB) : DB :=
  set_posts (filter (fun kp => post_topic_id kp.2 ≠ topic_pk topic))
    (set_topics (delete (topic_pk topic)) db).

Definition delete_post_row (post : Post) (db : DB) : DB :=
  let db := set_posts (delete (post_pk post)) db in
  match filter (fun p => post_topic_id p = post_topic_id post)
          (rows (posts db)) with
  | [] => set_topics (delete (post_topic_id post)) db
  | _ => db
  end.

Definition paginate (request : Request) (qs : QuerySet) (paginate_by : nat)
    (template_name : string) (extra_context : list (string * CtxVal))
    : Exn + Response :=
  match GET_page request with
  | PageInvalid => inl Http404
  | _ => inr (TemplateResponse template_name extra_context)
  end.

Definition models : Models := {|
  TOPICS_ON_PAGE := 20;
  POSTS_ON_PAGE := 20;
  Category_for_user := fun _ _ => [1%Z];
  Forum_has_access := fun _ forum u => forum_visible (forum_pk forum) u;
  Forum_can_post := fun _ forum u =>
    is_authenticated u && forum_visible (forum_pk forum) u;
  Topic_has_access := fun _ topic u => forum_visible (topic_forum_id topic) u;
  Topic_can_post := fun _ topic u => is_authenticated u && negb (closed topic);
  Topic_can_edit := fun _ _ u => staff u;
  Topic_can_delete := fun _ _ u => staff u;
  Post_has_access := fun db post u =>
    match topics db !! post_topic_id post with
    | Some topic => forum_visible (topic_forum_id topic) u
    | None => false
    end;
  Post_can_edit := fun _ post u =>
    staff u || bool_decide (user_pk u = Some (post_user_id post));
  Post_can_delete := fun _ _ u => staff u;
  Topic_delete := delete_topic_row;
  Post_delete := delete_post_row;
  rating_policy := fun s => Z.of_nat (size s);
  AddTopicForm_is_valid := fun _ _ _ _ => false;
  AddTopicForm_save := fun _ _ _ db =>
    (db, {| topic_pk := 0; topic_forum_id := 0; topic_user_id := 0; views := 0;
            closed := false; sticky := false; heresy := false;
            send_response := false; topic_rating := 0; topic_votes := ∅ |});
  AddPostForm_is_valid := fun _ _ _ _ => false;
  AddPostForm_save := fun _ _ _ db =>
    (db, {| post_pk := 0; post_topic_id := 0; post_user_id := 0; created := 0;
            updated := None; updated_by := None; post_rating := 0;
            post_votes := ∅ |});
  EditPostForm_is_valid := fun _ _ _ => false;
  EditPostForm_save := fun post _ => post;
  MoveTopicForm_is_valid := fun _ _ _ => false;
  MoveTopicForm_save := fun _ _ db => db;
  object_list := paginate;
  extract_year_month := fun t => ((t / 12)%Z, (t mod 12 + 1)%Z);
  render_chart := fun title _ _ _ => title
|}.

Definition topic (pk forum_id : Z) (n : Z) (voters : gset Z) : Topic :=
  {| topic_pk := pk; topic_forum_id := forum_id; topic_user_id := 2;
     views := n; closed := false; sticky := false; heresy := false;
     send_response := false; topic_rating := Z.of_nat (size voters);
     topic_votes := voters |}.

Definition post (pk topic_id : Z) (t : Z) : Post :=
  {| post_pk := pk; post_topic_id := topic_id; post_user_id := 2;
     created := t; updated := None; updated_by := None; post_rating := 0;
     post_votes := ∅ |}.

(** Topic 10 is public with two posts and one vote (of user 2); topic 20
    is in the staff forum with one post. *)
Definition topic10 : Topic := topic 10 1 5 {[ 2%Z ]}.
Definition topic20 : Topic := topic 20 2 0 ∅.
Definition post200 : Post := post 200 20 8.

Definition db : DB :=
  {| users := [1; 2; 3]%Z;
     forums := {[ 1%Z := {| forum_pk := 1; forum_category_id := 1 |};
                  2%Z := {| forum_pk := 2; forum_category_id := 1 |} ]};
     topics := {[ 10%Z := topic10; 20%Z := topic20 ]};
     posts := {[ 100%Z := post 100 10 7; 101%Z := post 101 10 9;
                 200%Z := post200 ]};
     read_markers := ∅;
     users_online := ∅;
     guests_online := ∅;
     flash := [] |}.

(** The same forum before anyone posted. *)
Definition db_no_posts : DB :=
  {| users := [1; 2; 3]%Z;
     forums := forums db;
     topics := ∅;
     posts := ∅;
     read_markers := ∅;
     users_online := ∅;
     guests_online := ∅;
     flash := [] |}.

Definition request (u : RequestUser) (verb : string) : Request :=
  {| user := u; method := verb; POST := []; GET_page := PageDefault;
     now := 1000 |}.

End Example.

(** ** Vocabulary of the further statements *)

(** The value a rendered context holds under a key. *)
Fixpoint ctx_lookup (key : string) (context : list (string * CtxVal))
    : option CtxVal :=
  match context with
  | [] => None
  | (k, v) :: rest => if String.eqb k key then Some v else ctx_lookup key rest
  end.

(** The views defined under the [login_required] decorator. *)
Definition login_wrapped (v : View) : bool :=
  match v with
  | IndexView | ForumPageView _ | TopicPageView _ | VoteView _ _
  | StatisticView | ChartView => false
  | _ => true
  end.

(** The view names, by primary key, a row that its table does not hold. *)
Definition names_missing_row (v : View) (db : DB) : Prop :=
  match v with
  | ForumPageView pk | MarkReadForumView pk | AddTopicView pk =>
      forums db !! pk = None
  | TopicPageView pk | MoveTopicView pk | AddPostView pk | SubscribeView pk
  | UnsubscribeView pk | HeresyView pk | CloseOpenView pk | StickView pk
  | DeleteTopicView pk | VoteView pk TopicModel =>
      topics db !! pk = None
  | EditPostView pk | DeletePostView pk | VoteView pk PostModel =>
      posts db !! pk = None
  | _ => False
  end.

(** The two subscription handlers, by the value they write. *)
Definition set_subscription (b : bool) : Request -> Z -> M Response :=
  if b then subscribe else unsubscribe.

(** The count a grouped list carries for a month, 0 if it has none. *)
Definition month_count (key : Z * Z) (grouped : list (Z * Z * Z)) : Z :=
  foldr (fun item acc => if decide (item.1 = key) then (item.2 + acc)%Z else acc)
    0%Z grouped.

(** How often a month occurs in a list of months. *)
Definition occurrences (key : Z * Z) (months : list (Z * Z)) : Z :=
  Z.of_nat (length (filter (fun k => k = key) months)).

(** A second forum, with forms that accept data: a topic needs a [name],
    a post a [body], a move the key of forum 1 or 2. *)
Module Cases.

Definition field (key : string) (data : list (string * string)) : string :=
  match list_find (fun kv => kv.1 = key) data with
  | Some (_, (_, v)) => v
  | None => ""
  end.

Definition filled (key : string) (data : list (string * string)) : bool :=
  negb (String.eqb (field key data) "").

Definition forum_choice (data : list (string * string)) : option Z :=
  if String.eqb (field "forum" data) "1" then Some 1%Z
  else if String.eqb (field "forum" data) "2" then Some 2%Z
  else None.

Definition next_pk {A} (table : gmap Z A) : Z :=
  (1 + map_fold (fun k _ acc => Z.max k acc) 0 table)%Z.

Definition author (u : RequestUser) : Z := default 0%Z (user_pk u).

Definition save_topic (forum : Forum) (u : RequestUser)
    (data : list (string * string)) (db : DB) : DB * Topic :=
  let topic :=
    {| topic_pk := next_pk (topics db); topic_forum_id := forum_pk forum;
       topic_user_id := author u; views := 0; closed := false;
       sticky := false; heresy := false; send_response := false;
       topic_rating := 0; topic_votes := ∅ |} in
  (set_topics <[topic_pk topic := topic]> db, topic).

Definition save_post (topic : Topic) (u : RequestUser)
    (data : list (string * string)) (db : DB) : DB * Post :=
  let post :=
    {| post_pk := next_pk (posts db); post_topic_id := topic_pk topic;
       post_user_id := author u; created := 1000; updated := None;
       updated_by := None; post_rating := 0; post_votes := ∅ |} in
  (set_posts <[post_pk post := post]> db, post).

Definition move (topic : Topic) (data : list (string * string)) (db : DB)
    : DB :=
  match forum_choice data with
  | Some forum_id =>
      set_topics
        <[topic_pk topic :=
            {| topic_pk := topic_pk topic; topic_forum_id := forum_id;
               topic_user_id := topic_user_id topic; views := views topic;
               closed := closed topic; sticky := sticky topic;
               heresy := heresy topic; send_response := send_response topic;
               topic_rating := topic_rating topic;
               topic_votes := topic_votes topic |}]> db
  | None => db
  end.

Definition models : Models := {|
  TOPICS_ON_PAGE := 1;
  POSTS_ON_PAGE := 20;
  Category_for_user := fun _ _ => [1%Z];
  Forum_has_access := fun _ forum u => Example.forum_visible (forum_pk forum) u;
  Forum_can_post := fun _ forum u =>
    is_authenticated u && Example.forum_visible (forum_pk forum) u;
  Topic_has_access := fun _ topic u =>
    Example.forum_visible (topic_forum_id topic) u;
  Topic_can_post := fun _ topic u => is_authenticated u && negb (closed topic);
  Topic_can_edit := fun _ _ u => Example.staff u;
  Topic_can_delete := fun _ _ u => Example.staff u;
  Post_has_access := fun db post u =>
    match topics db !! post_topic_id post with
    | Some topic => Example.forum_visible (topic_forum_id topic) u
    | None => false
    end;
  Post_can_edit := fun _ post u =>
    Example.staff u || bool_decide (user_pk u = Some (post_user_id post));
  Post_can_delete := fun _ _ u => Example.staff u;
  Topic_delete := Example.delete_topic_row;
  Post_delete := Example.delete_post_row;
  rating_policy := fun s => Z.of_nat (size s);
  AddTopicForm_is_valid := fun _ _ _ data => filled "name" data;
  AddTopicForm_save := save_topic;
  AddPostForm_is_valid := fun _ _ _ data => filled "body" data;
  AddPostForm_save := save_post;
  EditPostForm_is_valid := fun _ _ data => filled "body" data;
  EditPostForm_save := fun post _ => post;
  MoveTopicForm_is_valid := fun _ _ data => bool_decide (is_Some (forum_choice data));
  MoveTopicForm_save := move;
  object_list := Example.paginate;
  extract_year_month := fun t => ((t / 12)%Z, (t mod 12 + 1)%Z);
  render_chart := fun title _ _ _ => title
|}.

(** A request that submits form data. *)
Definition submit (u : RequestUser) (data : list (string * string)) : Request :=
  {| user := u; method := "POST"; POST := data; GET_page := PageDefault;
     now := 2000 |}.

(** A request for a page of a listing. *)
Definition page (u : RequestUser) (n : Z) : Request :=
  {| user := u; method := "GET"; POST := []; GET_page := PageNumber n;
     now := 2000 |}.

(** The forum of [Example.db] with a third topic, of user 3, that has no
    post yet. *)
Definition db : DB :=
  set_topics <[30%Z := {| topic_pk := 30; topic_forum_id := 1;
                          topic_user_id := 3; views := 9; closed := false;
                          sticky := false; heresy := false;
                          send_response := false; topic_rating := 0;
                          topic_votes := ∅ |}]> Example.db.

End Cases.

(** * Properties *)

(** ** Stores and rows *)

Lemma alter_Some {A} (f : A -> A) (m : gmap Z A) (k : Z) (x : A) :
  m !! k = Some x -> alter f k m = <[k := f x]> m.
Proof.
  intros Hk. apply map_eq. intros j.
  rewrite lookup_alter, lookup_insert.
  destruct (decide (k = j)) as [<-|]; [by rewrite Hk | done].
Qed.

Lemma set_topics_id (m : gmap Z Topic) (db : DB) :
  topics db = m -> set_topics (fun _ => m) db = db.
Proof. intros <-. by destruct db. Qed.

Lemma set_posts_id (m : gmap Z Post) (db : DB) :
  posts db = m -> set_posts (fun _ => m) db = db.
Proof. intros <-. by destruct db. Qed.

Lemma set_topics_set_topics (f g : gmap Z Topic -> gmap Z Topic) (db : DB) :
  set_topics g (set_topics f db) = set_topics (fun m => g (f m)) db.
Proof. reflexivity. Qed.

Lemma set_posts_set_posts (f g : gmap Z Post -> gmap Z Post) (db : DB) :
  set_posts g (set_posts f db) = set_posts (fun m => g (f m)) db.
Proof. reflexivity. Qed.

Lemma set_topics_alter (f : Topic -> Topic) (db : DB) (k : Z) (x : Topic) :
  topics db !! k = Some x ->
  set_topics (alter f k) db = set_topics <[k := f x]> db.
Proof. intros Hk. unfold set_topics. by rewrite (alter_Some _ _ _ _ Hk). Qed.

Lemma set_topics_ext (f g : gmap Z Topic -> gmap Z Topic) (db : DB) :
  f (topics db) = g (topics db) -> set_topics f db = set_topics g db.
Proof. unfold set_topics. by intros ->. Qed.

Lemma set_posts_ext (f g : gmap Z Post -> gmap Z Post) (db : DB) :
  f (posts db) = g (posts db) -> set_posts f db = set_posts g db.
Proof. unfold set_posts. by intros ->. Qed.

Lemma toggle_vote_elem (upk : Z) (s : gset Z) :
  upk ∈ toggle_vote upk s <-> upk ∉ s.
Proof. unfold toggle_vote. case_decide; set_solver. Qed.

Lemma toggle_vote_twice (upk : Z) (s : gset Z) :
  toggle_vote upk (toggle_vote upk s) = s.
Proof.
  unfold toggle_vote. destruct (decide (upk ∈ s)) as [Hin|Hout].
  - rewrite decide_False by set_solver.
    apply set_eq. intros x. destruct (decide (x = upk)); set_solver.
  - rewrite decide_True by set_solver. set_solver.
Qed.

(** ** Voting *)

Section Voting.
Context `{Models}.

(** One vote of a logged-in user with access: the row gets the toggled
    membership and the recomputed rating, the answer carries both. *)
Lemma vote_accessible (request : Request) (upk : Z) (obj : Votable) (db : DB) :
  stored obj db ->
  user request = User upk ->
  accessible db obj (user request) = true ->
  let s := toggle_vote upk (obj_votes obj) in
  vote request (obj_pk obj) (model_of obj) db =
    (put (revoted s obj) db,
     inr (vote_body (rating_policy s) (bool_decide (upk ∈ s)))).
Proof.
  intros Hst Hu Hacc s. subst s. unfold vote. rewrite Hu in *.
  destruct obj as [t|p]; simpl in *;
    unfold bind, get_object_or_404, ret, has_access, query, votes_exists,
      votes, toggle_vote; simpl; rewrite Hst; simpl; rewrite Hacc; simpl;
    case_bool_decide as Hin; rewrite Hst in Hin; simpl in Hin;
    [rewrite decide_True by done | rewrite decide_False by done
    |rewrite decide_True by done | rewrite decide_False by done];
    unfold votes_remove, votes_add, votes_update, execute, update_rating;
    simpl; rewrite (alter_Some _ _ _ _ Hst); simpl;
    rewrite lookup_insert_eq; simpl; unfold vote_body.
  - rewrite bool_decide_eq_false_2 by set_solver.
    rewrite set_topics_set_topics. f_equal. apply set_topics_ext. cbv beta.
    by rewrite (alter_Some _ _ _ _ Hst), alter_insert_eq.
  - rewrite bool_decide_eq_true_2 by set_solver.
    rewrite set_topics_set_topics. f_equal. apply set_topics_ext. cbv beta.
    by rewrite (alter_Some _ _ _ _ Hst), alter_insert_eq.
  - rewrite bool_decide_eq_false_2 by set_solver.
    rewrite set_posts_set_posts. f_equal. apply set_posts_ext. cbv beta.
    by rewrite (alter_Some _ _ _ _ Hst), alter_insert_eq.
  - rewrite bool_decide_eq_true_2 by set_solver.
    rewrite set_posts_set_posts. f_equal. apply set_posts_ext. cbv beta.
    by rewrite (alter_Some _ _ _ _ Hst), alter_insert_eq.
Qed.

Lemma vote_missing (request : Request) (pk : Z) (model : VotableModel)
    (db : DB) :
  match model with
  | TopicModel => topics db !! pk = None
  | PostModel => posts db !! pk = None
  end ->
  vote request pk model db = (db, inl Http404).
Proof.
  intros Hnone. unfold vote. destruct model; simpl;
    unfold bind, get_object_or_404; by rewrite Hnone.
Qed.

Lemma vote_anonymous (request : Request) (obj : Votable) (db : DB) :
  stored obj db ->
  user request = AnonymousUser ->
  vote request (obj_pk obj) (model_of obj) db = (db, inl PermissionDenied).
Proof.
  intros Hst Hu. unfold vote. rewrite Hu.
  destruct obj; simpl in *; unfold bind, get_object_or_404; by rewrite Hst.
Qed.

Lemma vote_no_access (request : Request) (obj : Votable) (db : DB) :
  stored obj db ->
  accessible db obj (user request) = false ->
  vote request (obj_pk obj) (model_of obj) db = (db, inl PermissionDenied).
Proof.
  intros Hst Hacc. unfold vote.
  destruct obj, (user request); simpl in *;
    unfold bind, get_object_or_404, has_access, query; rewrite Hst; simpl;
    by rewrite ?Hacc.
Qed.

Lemma stored_put (obj : Votable) (db : DB) : stored obj (put obj db).
Proof. destruct obj; simpl; apply lookup_insert_eq. Qed.

Lemma put_put (obj obj' : Votable) (db : DB) :
  model_of obj = model_of obj' -> obj_pk obj = obj_pk obj' ->
  put obj' (put obj db) = put obj' db.
Proof.
  destruct obj, obj'; simpl; try discriminate; intros _ ->.
  - rewrite set_topics_set_topics. apply set_topics_ext.
    by rewrite insert_insert_eq.
  - rewrite set_posts_set_posts. apply set_posts_ext.
    by rewrite insert_insert_eq.
Qed.

Lemma put_stored (obj : Votable) (db : DB) : stored obj db -> put obj db = db.
Proof.
  destruct obj; simpl; intros Hst.
  - rewrite <- (set_topics_id (topics db) db eq_refl) at 2.
    apply set_topics_ext. by apply insert_id.
  - rewrite <- (set_posts_id (posts db) db eq_refl) at 2.
    apply set_posts_ext. by apply insert_id.
Qed.

Lemma revoted_consistent (obj : Votable) :
  rating obj = rating_policy (obj_votes obj) ->
  revoted (obj_votes obj) obj = obj.
Proof.
  destruct obj as [[]|[]]; simpl; intros <-; reflexivity.
Qed.

(** C3: on an existing entity the vote operation fails with the
    authorization error (PermissionDenied, store untouched) whenever the
    requesting user is anonymous or lacks view access; otherwise it toggles
    the user's membership in the votes, recomputes the rating from the new
    membership, and answers with exactly two fields, the new rating and the
    user's new voted state. *)
Theorem vote_authorizes_then_toggles (request : Request) (obj : Votable)
    (db : DB) :
  stored obj db ->
  (is_authenticated (user request) = false \/
   accessible db obj (user request) = false ->
   vote request (obj_pk obj) (model_of obj) db = (db, inl PermissionDenied))
  /\ (forall upk,
        user request = User upk ->
        accessible db obj (user request) = true ->
        let s := toggle_vote upk (obj_votes obj) in
        vote request (obj_pk obj) (model_of obj) db =
          (put (revoted s obj) db,
           inr (JsonResponse [("rating", JInt (rating_policy s));
                              ("voted", JBool (bool_decide (upk ∈ s)))]))).
Proof.
  intros Hst. split.
  - intros [Hanon|Hacc].
    + apply vote_anonymous; [done|]. by destruct (user request).
    + by apply vote_no_access.
  - intros upk Hu Hacc. by apply vote_accessible.
Qed.

(** C2, as the code has it: for a logged-in user with access to a votable
    entity (at both calls), voting twice in succession returns the vote
    membership to the original set and leaves the rating recomputed from
    it, so the entity is back at its rating before the first call whenever
    that rating agreed with the membership; the second call reports
    voted=true exactly when the user had voted before the first call, and
    voted=false when the user had not. *)
Theorem vote_twice_restores_membership (request : Request) (upk : Z)
    (obj : Votable) (db : DB) :
  stored obj db ->
  user request = User upk ->
  accessible db obj (user request) = true ->
  let once := vote request (obj_pk obj) (model_of obj) in
  accessible (store_after once db)
    (revoted (toggle_vote upk (obj_votes obj)) obj) (user request) = true ->
  once (store_after once db) =
    (put (revoted (obj_votes obj) obj) db,
     inr (JsonResponse
            [("rating", JInt (rating_policy (obj_votes obj)));
             ("voted", JBool (bool_decide (upk ∈ obj_votes obj)))]))
  /\ (rating obj = rating_policy (obj_votes obj) ->
      store_after once (store_after once db) = db).
Proof.
  intros Hst Hu Hacc once. subst once. unfold store_after.
  rewrite (vote_accessible request upk obj db Hst Hu Hacc). simpl.
  intros Hacc'.
  set (obj1 := revoted (toggle_vote upk (obj_votes obj)) obj) in *.
  assert (Hpk : obj_pk obj1 = obj_pk obj) by by destruct obj.
  assert (Hmodel : model_of obj1 = model_of obj) by by destruct obj.
  assert (Hvotes : toggle_vote upk (obj_votes obj1) = obj_votes obj).
  { replace (obj_votes obj1) with (toggle_vote upk (obj_votes obj))
      by by destruct obj.
    apply toggle_vote_twice. }
  pose proof (vote_accessible request upk obj1 (put obj1 db)
                (stored_put obj1 db) Hu Hacc') as Htwice.
  simpl in Htwice. rewrite Hpk, Hmodel, Hvotes in Htwice.
  rewrite put_put in Htwice by (by destruct obj).
  replace (revoted (obj_votes obj) obj1) with (revoted (obj_votes obj) obj)
    in Htwice by by destruct obj.
  split; [exact Htwice|].
  intros Hrating. rewrite Htwice. simpl.
  rewrite revoted_consistent by done. by apply put_stored.
Qed.

End Voting.

Lemma vote_authorizes_then_toggles_witness :
  stored (ATopic Example.topic10) Example.db /\
  vote (H := Example.models) (Example.request (User 3) "POST") 10 TopicModel
    Example.db =
    (put (revoted (H := Example.models) {[ 2%Z; 3%Z ]}
            (ATopic Example.topic10)) Example.db,
     inr (JsonResponse [("rating", JInt 2); ("voted", JBool true)])).
Proof.
  assert (Hst : stored (ATopic Example.topic10) Example.db)
    by (vm_compute; reflexivity).
  split; [exact Hst|].
  exact (proj2 (vote_authorizes_then_toggles (H := Example.models)
                  (Example.request (User 3) "POST") (ATopic Example.topic10)
                  Example.db Hst)
           3%Z eq_refl eq_refl).
Defined.

Lemma vote_twice_restores_membership_witness :
  stored (ATopic Example.topic10) Example.db /\
  vote (H := Example.models) (Example.request (User 3) "POST") 10 TopicModel
    (store_after
       (vote (H := Example.models) (Example.request (User 3) "POST") 10
          TopicModel) Example.db) =
    (Example.db,
     inr (JsonResponse [("rating", JInt 1); ("voted", JBool false)])).
Proof.
  assert (Hst : stored (ATopic Example.topic10) Example.db)
    by (vm_compute; reflexivity).
  split; [exact Hst|].
  destruct (vote_twice_restores_membership (H := Example.models)
              (Example.request (User 3) "POST") 3%Z (ATopic Example.topic10)
              Example.db Hst eq_refl eq_refl eq_refl) as [Htwice _].
  etransitivity; [exact Htwice|]. vm_compute. reflexivity.
Defined.

(** Topic 10 already has the vote of user 2, who has access to it: the
    second of two votes in succession by user 2 reports voted=true, not
    voted=false. *)
Lemma vote_twice_by_a_voter :
  stored (ATopic Example.topic10) Example.db /\
  accessible (H := Example.models) Example.db (ATopic Example.topic10)
    (User 2) = true /\
  result_of
    (vote (H := Example.models) (Example.request (User 2) "POST") 10
       TopicModel) Example.db =
    inr (JsonResponse [("rating", JInt 0); ("voted", JBool false)]) /\
  result_of
    (vote (H := Example.models) (Example.request (User 2) "POST") 10
       TopicModel)
    (store_after
       (vote (H := Example.models) (Example.request (User 2) "POST") 10
          TopicModel) Example.db) =
    inr (JsonResponse [("rating", JInt 1); ("voted", JBool true)]).
Proof. vm_compute. repeat split; reflexivity. Qed.

(** ** Visibility: the topic page and add-post *)

Section Visibility.
Context `{Models}.

Lemma topic_page_missing (request : Request) (pk : Z) (db : DB) :
  topics db !! pk = None -> topic_page request pk db = (db, inl Http404).
Proof.
  intros Hnone. unfold topic_page, bind, get_object_or_404. by rewrite Hnone.
Qed.

Lemma topic_page_hidden (request : Request) (t : Topic) (db : DB) :
  topics db !! topic_pk t = Some t ->
  Topic_has_access db t (user request) = false ->
  topic_page request (topic_pk t) db = (db, inl Http404).
Proof.
  intros Hst Hacc. unfold topic_page, bind, get_object_or_404, query.
  rewrite Hst. simpl. by rewrite Hacc.
Qed.

Lemma topic_page_visible (request : Request) (t : Topic) (db : DB) :
  topics db !! topic_pk t = Some t ->
  Topic_has_access db t (user request) = true ->
  store_after (topic_page request (topic_pk t)) db = viewed request t db
  /\ forall forum,
      forums db !! topic_forum_id t = Some forum ->
      result_of (topic_page request (topic_pk t)) db =
        object_list request (QPosts (Topic_posts t db)) POSTS_ON_PAGE
          "djforum/topic.html"
          [("form",
            if Topic_can_post (counted t db) t (user request)
            then VForm None else VNone);
           ("forum", VForum forum);
           ("topic", VTopic t);
           ("has_access",
            VBool (Topic_has_access (viewed request t db) t (user request)))].
Proof.
  intros Hst Hacc.
  unfold store_after, result_of, topic_page, bind, get_object_or_404, query,
    execute, mark_visited_for, Topic_forum, objects_get, object_list_view,
    lift, viewed, counted.
  rewrite Hst. simpl. rewrite Hacc. simpl.
  rewrite (set_topics_alter _ _ _ _ Hst).
  split.
  - by destruct (forums db !! topic_forum_id t).
  - intros forum Hforum. by rewrite Hforum.
Qed.

Lemma add_post_hidden (request : Request) (t : Topic) (db : DB) :
  is_authenticated (user request) = true ->
  topics db !! topic_pk t = Some t ->
  Topic_has_access db t (user request) = false ->
  add_post request (topic_pk t) db = (db, inl Http404).
Proof.
  intros Hauth Hst Hacc.
  unfold add_post, login_required, bind, get_object_or_404, query.
  rewrite Hauth, Hst. simpl. by rewrite Hacc.
Qed.

(** C1, as the code has it: for every Topic T and every user U with
    T.has_access(U) == False, the handlers gated on visibility (the topic
    page view, and add-post once U is logged in) return NotFound, never
    Forbidden, and change nothing; the vote handler answers the same user
    with Forbidden. *)
Theorem hidden_topic_outcomes (request : Request) (t : Topic) (db : DB) :
  topics db !! topic_pk t = Some t ->
  Topic_has_access db t (user request) = false ->
  (outcome (result_of (topic_page request (topic_pk t)) db) = NotFound
   /\ store_after (topic_page request (topic_pk t)) db = db)
  /\ (is_authenticated (user request) = true ->
      outcome (result_of (add_post request (topic_pk t)) db) = NotFound
      /\ store_after (add_post request (topic_pk t)) db = db)
  /\ (outcome (result_of (vote request (topic_pk t) TopicModel) db) = Forbidden
      /\ store_after (vote request (topic_pk t) TopicModel) db = db).
Proof.
  intros Hst Hacc. unfold result_of, store_after.
  pose proof (vote_no_access request (ATopic t) db Hst Hacc) as Hvote.
  simpl in Hvote. repeat split.
  - by rewrite topic_page_hidden.
  - by rewrite topic_page_hidden.
  - by rewrite add_post_hidden.
  - by rewrite add_post_hidden.
  - by rewrite Hvote.
  - by rewrite Hvote.
Qed.

(** C5: for every accessible Topic a topic page view, by whatever user,
    the anonymous one included, adds exactly 1 to the Topic's view counter
    and upserts the viewer's read marker for the topic to the time of the
    request (nothing else in the store changes), and the page is what
    [object_list] renders; an inaccessible or nonexistent topic yields
    NotFound and leaves the store, the counter with it, unchanged. *)
Theorem topic_page_counts_view (request : Request) (t : Topic) (db : DB) :
  topics db !! topic_pk t = Some t ->
  (Topic_has_access db t (user request) = true ->
   let db' := store_after (topic_page request (topic_pk t)) db in
   db' = viewed request t db
   /\ views <$> topics db' !! topic_pk t = Some (views t + 1)%Z
   /\ read_markers db' !! (user_pk (user request), topic_pk t)
      = Some (now request)
   /\ forall forum,
       forums db !! topic_forum_id t = Some forum ->
       result_of (topic_page request (topic_pk t)) db =
         object_list request (QPosts (Topic_posts t db)) POSTS_ON_PAGE
           "djforum/topic.html"
           [("form",
             if Topic_can_post (counted t db) t (user request)
             then VForm None else VNone);
            ("forum", VForum forum);
            ("topic", VTopic t);
            ("has_access",
             VBool (Topic_has_access (viewed request t db) t (user request)))])
  /\ (Topic_has_access db t (user request) = false ->
      topic_page request (topic_pk t) db = (db, inl Http404))
  /\ (forall pk,
        topics db !! pk = None ->
        topic_page request pk db = (db, inl Http404)).
Proof.
  intros Hst. split; [|split].
  - intros Hacc db'. subst db'.
    destruct (topic_page_visible request t db Hst Hacc) as [-> Hpage].
    split; [done|]. split; [|split; [|exact Hpage]].
    + unfold viewed, counted. simpl. by rewrite lookup_insert_eq.
    + unfold viewed. simpl. by rewrite lookup_insert_eq.
  - by apply topic_page_hidden.
  - intros pk. by apply topic_page_missing.
Qed.

End Visibility.

(** ** Moderation and deletion *)

Section Moderation.
Context `{Models}.

Lemma with_flag_own (f : Flag) (b : bool) (t : Topic) :
  flag f (with_flag f b t) = b.
Proof. by destruct f. Qed.

Lemma with_flag_other (f g : Flag) (b : bool) (t : Topic) :
  g <> f -> flag g (with_flag f b t) = flag g t.
Proof. by destruct f, g. Qed.

Lemma with_flag_back (f : Flag) (b : bool) (t : Topic) :
  with_flag f (flag f t) (with_flag f b t) = t.
Proof. by destruct f, t. Qed.

Lemma with_flag_pk (f : Flag) (b : bool) (t : Topic) :
  topic_pk (with_flag f b t) = topic_pk t.
Proof. by destruct f. Qed.

Lemma toggle_forbidden (f : Flag) (request : Request) (t : Topic) (db : DB) :
  is_authenticated (user request) = true ->
  topics db !! topic_pk t = Some t ->
  Topic_can_edit db t (user request) = false ->
  toggle f request (topic_pk t) db = (db, inl PermissionDenied).
Proof.
  intros Hauth Hst Hedit.
  destruct f; simpl;
    unfold heresy_unheresy_topic, close_open_topic, stick_unstick_topic,
      login_required, bind, get_object_or_404, query;
    rewrite Hauth, Hst; simpl; by rewrite Hedit.
Qed.

Lemma toggle_allowed (f : Flag) (request : Request) (t : Topic) (db : DB) :
  is_authenticated (user request) = true ->
  topics db !! topic_pk t = Some t ->
  Topic_can_edit db t (user request) = true ->
  toggle f request (topic_pk t) db =
    (set_topics <[topic_pk t := with_flag f (negb (flag f t)) t]> db,
     inr (Redirect (ToTopic (topic_pk t)))).
Proof.
  intros Hauth Hst Hedit.
  destruct f; simpl;
    unfold heresy_unheresy_topic, close_open_topic, stick_unstick_topic,
      login_required, bind, get_object_or_404, query;
    rewrite Hauth, Hst; simpl; rewrite Hedit; simpl.
  - by destruct (heresy t).
  - by destruct (closed t).
  - by destruct (sticky t).
Qed.

(** C4: each of the three moderation operations on a Topic (heresy,
    closed/open, sticky), asked for by a logged-in user, requires can_edit
    (failing it is PermissionDenied, a hard Forbidden, and nothing
    changes); with can_edit it flips exactly its own flag on the Topic's
    row, leaves the other two flags unchanged, and applying the same
    operation again restores the store, the flag with it. *)
Theorem moderation_toggle_flips_own_flag (f : Flag) (request : Request)
    (t : Topic) (db : DB) :
  is_authenticated (user request) = true ->
  topics db !! topic_pk t = Some t ->
  (Topic_can_edit db t (user request) = false ->
   toggle f request (topic_pk t) db = (db, inl PermissionDenied))
  /\ (Topic_can_edit db t (user request) = true ->
      let t' := with_flag f (negb (flag f t)) t in
      let db' := set_topics <[topic_pk t := t']> db in
      toggle f request (topic_pk t) db =
        (db', inr (Redirect (ToTopic (topic_pk t))))
      /\ flag f t' = negb (flag f t)
      /\ (forall g, g <> f -> flag g t' = flag g t)
      /\ (Topic_can_edit db' t' (user request) = true ->
          toggle f request (topic_pk t) db' =
            (db, inr (Redirect (ToTopic (topic_pk t)))))).
Proof.
  intros Hauth Hst. split; [by apply toggle_forbidden|].
  intros Hedit t' db'. split; [by apply toggle_allowed|].
  split; [apply with_flag_own|]. split; [intros g; apply with_flag_other|].
  intros Hedit'.
  assert (Hst' : topics db' !! topic_pk t' = Some t').
  { subst db' t'. simpl. rewrite with_flag_pk. apply lookup_insert_eq. }
  pose proof (toggle_allowed f request t' db' Hauth Hst' Hedit') as Htwice.
  subst t' db'. rewrite with_flag_pk in Htwice. rewrite Htwice. f_equal.
  rewrite with_flag_own, negb_involutive, with_flag_back.
  rewrite set_topics_set_topics.
  rewrite <- (set_topics_id (topics db) db eq_refl) at 2.
  apply set_topics_ext. rewrite insert_insert_eq. by apply insert_id.
Qed.

(** C8: for a logged-in user, the delete-topic handler deletes the Topic
    only when the request method is POST; for any other method it redirects
    to the Topic's forum with no state change; lacking can_delete it raises
    PermissionDenied, a hard Forbidden, whatever the method, and is never
    a redirect. *)
Theorem delete_topic_only_on_post (request : Request) (t : Topic) (db : DB) :
  is_authenticated (user request) = true ->
  topics db !! topic_pk t = Some t ->
  (Topic_can_delete db t (user request) = false ->
   delete_topic request (topic_pk t) db = (db, inl PermissionDenied))
  /\ (Topic_can_delete db t (user request) = true ->
      (method request = "POST" ->
       forall forum,
         forums (Topic_delete t db) !! topic_forum_id t = Some forum ->
         delete_topic request (topic_pk t) db =
           (Topic_delete t db, inr (Redirect (ToForum (forum_pk forum)))))
      /\ (method request <> "POST" ->
          forall forum,
            forums db !! topic_forum_id t = Some forum ->
            delete_topic request (topic_pk t) db =
              (db, inr (Redirect (ToForum (forum_pk forum)))))).
Proof.
  intros Hauth Hst.
  unfold delete_topic, login_required, bind, get_object_or_404, query,
    Topic_forum, objects_get, execute.
  rewrite Hauth, Hst. simpl. split.
  - by intros ->.
  - intros ->. simpl. split.
    + intros -> forum Hforum. simpl. by rewrite Hforum.
    + intros Hget forum Hforum.
      apply String.eqb_neq in Hget. rewrite Hget. simpl. by rewrite Hforum.
Qed.

(** After the delete the handler looks the Post's Topic up: when the Topic
    is still there, the answer redirects to it. *)
Lemma delete_post_topic_survives (request : Request) (p : Post) (t' : Topic)
    (db : DB) :
  is_authenticated (user request) = true ->
  posts db !! post_pk p = Some p ->
  Post_can_delete db p (user request) = true ->
  topics (Post_delete p db) !! post_topic_id p = Some t' ->
  delete_post request (post_pk p) db =
    (Post_delete p db, inr (Redirect (ToTopic (topic_pk t')))).
Proof.
  intros Hauth Hst Hdel Hstill.
  unfold delete_post, login_required, bind, get_object_or_404, query,
    execute, try_except, objects_get.
  rewrite Hauth. simpl. rewrite Hst. simpl. rewrite Hdel. simpl.
  by rewrite Hstill.
Qed.

(** When the Topic is gone, the fallback reads [post.topic] after the
    delete.  Nothing in the handler has loaded that relation, and here the
    model's methods do not load it either: the lookup meets the same
    missing row and raises DoesNotExist in its turn. *)
Lemma delete_post_topic_gone (request : Request) (p : Post) (db : DB) :
  is_authenticated (user request) = true ->
  posts db !! post_pk p = Some p ->
  Post_can_delete db p (user request) = true ->
  topics (Post_delete p db) !! post_topic_id p = None ->
  delete_post request (post_pk p) db = (Post_delete p db, inl DoesNotExist).
Proof.
  intros Hauth Hst Hdel Hgone.
  unfold delete_post, login_required, bind, get_object_or_404, query,
    execute, try_except, objects_get, Post_topic.
  rewrite Hauth. simpl. rewrite Hst. simpl. rewrite Hdel. simpl.
  rewrite Hgone. simpl. unfold objects_get. by rewrite Hgone.
Qed.

End Moderation.

(** ** Statistics *)

Section Statistics.

(** C7, at the point where the code departs from it: with no posts in the
    store the statistics handler does not produce a report; the first-post
    lookup indexes an empty list, nothing guards it, and the handler leaves
    with IndexError. *)
Theorem statistic_raises_without_posts (request : Request) (db : DB) :
  posts db = ∅ ->
  statistic request db = (db, inl IndexError)
  /\ outcome (result_of (statistic request) db) = ServerError.
Proof.
  intros Hposts.
  assert (Hrun : statistic request db = (db, inl IndexError)).
  { unfold statistic, bind, query, rows. rewrite Hposts.
    by rewrite map_to_list_empty. }
  split; [exact Hrun|]. unfold result_of. by rewrite Hrun.
Qed.

(** With at least one post the report is rendered. *)
Lemma statistic_renders_with_posts (request : Request) (db : DB) :
  posts db <> ∅ ->
  exists context,
    statistic request db =
      (db, inr (TemplateResponse "djforum/statistic.html" context)).
Proof.
  intros Hposts. unfold statistic, bind, query, ret, raise, rows, order_by.
  assert (Hrows : (map_to_list (posts db)).*2 <> []).
  { intros Hnil. apply Hposts, map_to_list_empty_iff.
    by destruct (map_to_list (posts db)). }
  destruct ((map_to_list (posts db)).*2) as [|p l]; [done|]. simpl.
  destruct (insert_by _ p _) as [|q l'] eqn:Hins; [|by eexists].
  exfalso. clear -Hins. revert Hins.
  generalize
    (foldr (insert_by (fun a b : Post => (created a <=? created b)%Z)) [] l).
  intros l0 Hins. destruct l0; simpl in Hins; [done|]. by case_match.
Qed.

End Statistics.

(** ** What an anonymous request can reach *)

Section Anonymous.
Context `{Models}.

Lemma read_only_ret {A} (a : A) : read_only (ret a).
Proof. by intros db. Qed.

Lemma read_only_raise {A} (e : Exn) : read_only (raise (A := A) e).
Proof. by intros db. Qed.

Lemma read_only_query {A} (q : DB -> A) : read_only (query q).
Proof. by intros db. Qed.

Lemma read_only_lift {A} (r : Exn + A) : read_only (lift r).
Proof. by intros db. Qed.

Lemma read_only_get_object_or_404 {A} (table : DB -> gmap Z A) (pk : Z) :
  read_only (get_object_or_404 table pk).
Proof.
  intros db. unfold store_after, get_object_or_404.
  by destruct (table db !! pk).
Qed.

Lemma read_only_bind {A B} (m : M A) (k : A -> M B) :
  read_only m -> (forall a, read_only (k a)) -> read_only (bind m k).
Proof.
  intros Hm Hk db. specialize (Hm db). unfold store_after, bind in *.
  destruct (m db) as [db' [e|a]]; simpl in *; subst db'; [done|].
  apply Hk.
Qed.

Lemma read_only_login_required (request : Request) (view : M Response) :
  user request = AnonymousUser -> read_only (login_required request view).
Proof. intros Hu db. unfold login_required. by rewrite Hu. Qed.

Create HintDb read_only.
Hint Resolve read_only_ret read_only_raise read_only_query read_only_lift
  read_only_get_object_or_404 read_only_login_required : read_only.

Ltac solve_read_only :=
  repeat first
    [ progress auto with read_only
    | apply read_only_bind; [|intros]
    | match goal with
      | |- read_only (if ?b then _ else _) => destruct b
      | |- read_only (match ?x with _ => _ end) => destruct x
      end ].

Lemma read_only_index (request : Request) : read_only (index request).
Proof. unfold index. solve_read_only. Qed.

Lemma read_only_forum_page (request : Request) (pk : Z) :
  read_only (forum_page request pk).
Proof. unfold forum_page, object_list_view. solve_read_only. Qed.

Lemma read_only_statistic (request : Request) : read_only (statistic request).
Proof. unfold statistic. solve_read_only. Qed.

Lemma read_only_posts_per_month_chart (request : Request) :
  read_only (posts_per_month_chart request).
Proof. unfold posts_per_month_chart. solve_read_only. Qed.

Lemma read_only_vote_anonymous (request : Request) (pk : Z)
    (model : VotableModel) :
  user request = AnonymousUser -> read_only (vote request pk model).
Proof.
  intros Hu. unfold vote, get_votable_or_404. rewrite Hu.
  destruct model; solve_read_only.
Qed.

(** C10, as the code has it: in the vote handler the entity is looked up
    before the authentication check, so an anonymous request naming a
    nonexistent entity id gets Http404 (NotFound) and not Forbidden; vote
    has no login-redirect wrapper and checks for the anonymous user inside
    the handler, answering PermissionDenied on an existing entity; no
    handler other than the topic page view changes the store on an
    anonymous request, vote included. *)
Theorem anonymous_requests (request : Request) (db : DB) :
  user request = AnonymousUser ->
  (forall pk, topics db !! pk = None ->
     vote request pk TopicModel db = (db, inl Http404))
  /\ (forall pk, posts db !! pk = None ->
        vote request pk PostModel db = (db, inl Http404))
  /\ (forall obj, stored obj db ->
        vote request (obj_pk obj) (model_of obj) db =
          (db, inl PermissionDenied))
  /\ (forall v, (forall pk, v <> TopicPageView pk) ->
        store_after (handle v request) db = db).
Proof.
  intros Hu. repeat split.
  - intros pk Hnone. by apply (vote_missing request pk TopicModel).
  - intros pk Hnone. by apply (vote_missing request pk PostModel).
  - intros obj Hst. by apply vote_anonymous.
  - intros v Hv. destruct v; simpl;
      try (by apply read_only_login_required).
    + apply read_only_index.
    + apply read_only_forum_page.
    + by destruct (Hv pk).
    + by apply read_only_vote_anonymous.
    + apply read_only_statistic.
    + apply read_only_posts_per_month_chart.
Qed.

End Anonymous.

(** ** The properties on the concrete forum *)

(** User 3 is logged in and cannot see topic 20: the vote handler answers
    Forbidden, not NotFound. *)
Lemma vote_on_hidden_topic_is_forbidden :
  topics Example.db !! 20%Z = Some Example.topic20 /\
  Topic_has_access (Models := Example.models) Example.db Example.topic20
    (User 3) = false /\
  outcome
    (result_of
       (vote (H := Example.models) (Example.request (User 3) "POST") 20
          TopicModel) Example.db) = Forbidden.
Proof. vm_compute. repeat split; reflexivity. Qed.

Lemma hidden_topic_outcomes_witness :
  (topics Example.db !! 20%Z = Some Example.topic20 /\
   Topic_has_access (Models := Example.models) Example.db Example.topic20
     (User 3) = false) /\
  outcome
    (result_of
       (topic_page (H := Example.models) (Example.request (User 3) "GET") 20)
       Example.db) = NotFound /\
  outcome
    (result_of
       (add_post (H := Example.models) (Example.request (User 3) "GET") 20)
       Example.db) = NotFound.
Proof.
  assert (Hst : topics Example.db !! topic_pk Example.topic20
                = Some Example.topic20) by (vm_compute; reflexivity).
  destruct (hidden_topic_outcomes (H := Example.models)
              (Example.request (User 3) "GET") Example.topic20 Example.db
              Hst eq_refl) as [[Hpage _] [Hadd _]].
  split; [split; [exact Hst | reflexivity]|].
  split; [exact Hpage | exact (proj1 (Hadd eq_refl))].
Defined.

Lemma moderation_toggle_flips_own_flag_witness :
  (is_authenticated (User 1) = true /\
   topics Example.db !! 10%Z = Some Example.topic10) /\
  toggle (H := Example.models) Closed (Example.request (User 1) "POST") 10
    Example.db =
    (set_topics <[10%Z := with_closed true Example.topic10]> Example.db,
     inr (Redirect (ToTopic 10))) /\
  toggle (H := Example.models) Closed (Example.request (User 1) "POST") 10
    (set_topics <[10%Z := with_closed true Example.topic10]> Example.db) =
    (Example.db, inr (Redirect (ToTopic 10))).
Proof.
  assert (Hst : topics Example.db !! topic_pk Example.topic10
                = Some Example.topic10) by (vm_compute; reflexivity).
  destruct (moderation_toggle_flips_own_flag (H := Example.models) Closed
              (Example.request (User 1) "POST") Example.topic10 Example.db
              eq_refl Hst) as [_ Hallowed].
  destruct (Hallowed eq_refl) as (Honce & _ & _ & Htwice).
  split; [split; [reflexivity | exact Hst]|].
  split; [exact Honce | exact (Htwice eq_refl)].
Defined.

Lemma topic_page_counts_view_witness :
  topics Example.db !! 10%Z = Some Example.topic10 /\
  views <$>
    topics
      (store_after
         (topic_page (H := Example.models)
            (Example.request AnonymousUser "GET") 10) Example.db) !! 10%Z
  = Some 6%Z.
Proof.
  assert (Hst : topics Example.db !! topic_pk Example.topic10
                = Some Example.topic10) by (vm_compute; reflexivity).
  destruct (topic_page_counts_view (H := Example.models)
              (Example.request AnonymousUser "GET") Example.topic10
              Example.db Hst) as [Hvisible _].
  destruct (Hvisible eq_refl) as (_ & Hviews & _).
  split; [exact Hst | exact Hviews].
Defined.

Lemma statistic_raises_without_posts_witness :
  posts Example.db_no_posts = ∅ /\
  statistic (Example.request AnonymousUser "GET") Example.db_no_posts =
    (Example.db_no_posts, inl IndexError).
Proof.
  split; [reflexivity|].
  exact (proj1 (statistic_raises_without_posts
                  (Example.request AnonymousUser "GET") Example.db_no_posts
                  eq_refl)).
Defined.

Lemma delete_topic_only_on_post_witness :
  (is_authenticated (User 1) = true /\
   topics Example.db !! 10%Z = Some Example.topic10) /\
  delete_topic (H := Example.models) (Example.request (User 1) "POST") 10
    Example.db =
    (Example.delete_topic_row Example.topic10 Example.db,
     inr (Redirect (ToForum 1))) /\
  delete_topic (H := Example.models) (Example.request (User 1) "GET") 10
    Example.db = (Example.db, inr (Redirect (ToForum 1))).
Proof.
  assert (Hst : topics Example.db !! topic_pk Example.topic10
                = Some Example.topic10) by (vm_compute; reflexivity).
  destruct (delete_topic_only_on_post (H := Example.models)
              (Example.request (User 1) "POST") Example.topic10 Example.db
              eq_refl Hst) as [_ Hpost].
  destruct (delete_topic_only_on_post (H := Example.models)
              (Example.request (User 1) "GET") Example.topic10 Example.db
              eq_refl Hst) as [_ Hget].
  split; [split; [reflexivity | exact Hst]|]. split.
  - refine (proj1 (Hpost eq_refl) eq_refl
              {| forum_pk := 1; forum_category_id := 1 |} _).
    vm_compute. reflexivity.
  - refine (proj2 (Hget eq_refl) _
              {| forum_pk := 1; forum_category_id := 1 |} _).
    + discriminate.
    + vm_compute. reflexivity.
Defined.

(** The topic page view is not vote, has no login wrapper, and an
    anonymous view of topic 10 is served and moves the view counter from 5
    to 6. *)
Lemma anonymous_topic_page_changes_store :
  user (Example.request AnonymousUser "GET") = AnonymousUser /\
  (exists page,
     result_of
       (handle (H := Example.models) (TopicPageView 10)
          (Example.request AnonymousUser "GET")) Example.db = inr page) /\
  views <$> topics Example.db !! 10%Z = Some 5%Z /\
  views <$>
    topics
      (store_after
         (handle (H := Example.models) (TopicPageView 10)
            (Example.request AnonymousUser "GET")) Example.db) !! 10%Z
  = Some 6%Z /\
  store_after
    (handle (H := Example.models) (TopicPageView 10)
       (Example.request AnonymousUser "GET")) Example.db <> Example.db.
Proof.
  split; [reflexivity|]. split; [eexists; vm_compute; reflexivity|].
  split; [vm_compute; reflexivity|]. split; [vm_compute; reflexivity|].
  intros Hsame.
  apply (f_equal (fun d => views <$> topics d !! 10%Z)) in Hsame.
  vm_compute in Hsame. discriminate.
Qed.

Lemma anonymous_requests_witness :
  user (Example.request AnonymousUser "POST") = AnonymousUser /\
  vote (H := Example.models) (Example.request AnonymousUser "POST") 11
    TopicModel Example.db = (Example.db, inl Http404) /\
  vote (H := Example.models) (Example.request AnonymousUser "POST") 10
    TopicModel Example.db = (Example.db, inl PermissionDenied).
Proof.
  destruct (anonymous_requests (H := Example.models)
              (Example.request AnonymousUser "POST") Example.db eq_refl)
    as (Hmissing & _ & Hexisting & _).
  split; [reflexivity|]. split.
  - apply Hmissing. vm_compute. reflexivity.
  - apply (Hexisting (ATopic Example.topic10)). vm_compute. reflexivity.
Defined.

(** * Further properties of the handlers *)

Lemma elem_of_rows {A} (table : gmap Z A) (x : A) :
  x ∈ rows table <-> exists k, table !! k = Some x.
Proof.
  unfold rows. rewrite list_elem_of_fmap. split.
  - intros [[k y] [-> Hin]]. exists k. by apply elem_of_map_to_list.
  - intros [k Hk]. exists (k, x). split; [done|]. by apply elem_of_map_to_list.
Qed.

(** ** The index and the forum page *)

Section Listing.
Context `{Models}.

(** X1: the forum page never changes the store; it answers NotFound for a
    forum that does not exist or that the user may not see, and otherwise
    whatever [object_list] makes of the forum's own topics, each of them a
    row of the topic table that belongs to this forum. *)
Theorem forum_page_outcomes (request : Request) (pk : Z) (db : DB) :
  store_after (forum_page request pk) db = db
  /\ (forums db !! pk = None ->
      result_of (forum_page request pk) db = inl Http404)
  /\ (forall forum,
        forums db !! pk = Some forum ->
        result_of (forum_page request pk) db =
          if Forum_has_access db forum (user request)
          then object_list request (QTopics (Forum_topics forum db))
                 TOPICS_ON_PAGE "djforum/forum.html" [("forum", VForum forum)]
          else inl Http404)
  /\ (forall forum t,
        t ∈ Forum_topics forum db ->
        topic_forum_id t = forum_pk forum /\ exists k, topics db !! k = Some t).
Proof.
  split; [apply read_only_forum_page|].
  unfold result_of, forum_page, bind, get_object_or_404, query,
    object_list_view, lift.
  split; [by intros ->|]. split.
  - intros forum ->. simpl. by destruct (Forum_has_access _ _ _).
  - intros forum t Hin. unfold Forum_topics in Hin.
    apply list_elem_of_filter in Hin as [Hforum Hrow].
    split; [done|]. by apply elem_of_rows.
Qed.

(** X2: the index never fails and never changes the store: it always
    renders the index template; the users it lists as online are exactly
    the users of the user table that have an entry in the presence cache,
    the online count is their number and cannot exceed the user count. *)
Theorem index_always_renders (request : Request) (db : DB) :
  exists online,
    index request db =
      (db,
       inr (TemplateResponse "djforum/index.html"
              [("categories", VCategories (Category_for_user db (user request)));
               ("users_online", VUsers online);
               ("online_count", VInt (Z.of_nat (length online)));
               ("guest_count", VInt (Z.of_nat (size (guests_online db))));
               ("users_count", VInt (Z.of_nat (length (users db))));
               ("topics_count", VInt (Z.of_nat (size (topics db))));
               ("posts_count", VInt (Z.of_nat (size (posts db))))]))
    /\ (forall u, u ∈ online <-> u ∈ users db /\ is_Some (users_online db !! u))
    /\ length online <= length (users db).
Proof.
  exists (filter (fun u => is_Some (users_online db !! u)) (users db)).
  split; [reflexivity|]. split.
  - intros u. rewrite list_elem_of_filter. tauto.
  - apply length_filter.
Qed.

End Listing.

(** ** The login wrapper *)

Section Login.
Context `{Models}.

(** X9: an anonymous request to any of the fifteen views defined under
    [login_required] is answered with the redirect to the login page and
    the view is not entered: nothing is looked up (a nonexistent id is no
    NotFound here) and the store is unchanged. *)
Theorem anonymous_is_sent_to_login (v : View) (request : Request) (db : DB) :
  user request = AnonymousUser ->
  login_wrapped v = true ->
  handle v request db = (db, inr (Redirect ToLogin)).
Proof.
  intros Hu Hwrapped.
  destruct v; try discriminate; simpl;
    unfold unread_topics, mark_read_all, mark_read_forum, my_topics,
      add_topic, move_topic, add_post, edit_post, subscribe, unsubscribe,
      heresy_unheresy_topic, close_open_topic, stick_unstick_topic,
      delete_topic, delete_post, login_required;
    by rewrite Hu.
Qed.

End Login.

Lemma anonymous_is_sent_to_login_witness :
  (user (Example.request AnonymousUser "POST") = AnonymousUser /\
   login_wrapped (DeleteTopicView 77) = true) /\
  handle (H := Example.models) (DeleteTopicView 77)
    (Example.request AnonymousUser "POST") Example.db =
    (Example.db, inr (Redirect ToLogin)).
Proof.
  split; [by split|].
  exact (anonymous_is_sent_to_login (H := Example.models) (DeleteTopicView 77)
           (Example.request AnonymousUser "POST") Example.db eq_refl eq_refl).
Defined.

(** ** Subscriptions *)

Lemma set_subscription_owner (b : bool) (request : Request) (upk : Z)
    (t : Topic) (db : DB) :
  user request = User upk ->
  topics db !! topic_pk t = Some t ->
  topic_user_id t = upk ->
  set_subscription b request (topic_pk t) db =
    (set_topics <[topic_pk t := with_send_response b t]> db,
     inr (Redirect (ToTopic (topic_pk t)))).
Proof.
  intros Hu Hst Howner.
  destruct b; simpl;
    unfold subscribe, unsubscribe, login_required, bind,
      get_object_or_404_where, Topic_save, execute, ret, owned_by;
    rewrite Hu; simpl; rewrite Hst; simpl;
    by rewrite bool_decide_eq_true_2 by (by rewrite Howner).
Qed.

(** X7: subscribe and unsubscribe act for the owner of the topic only.
    For any other logged-in user, and for a topic that does not exist, they
    answer NotFound and change nothing; for the owner they write exactly
    the send_response flag of the topic's row and redirect to the topic;
    they are not toggles: of two requests in succession the last one wins,
    so repeating a request changes nothing more. *)
Theorem subscription_is_owner_only (b : bool) (request : Request) (upk : Z)
    (t : Topic) (db : DB) :
  user request = User upk ->
  topics db !! topic_pk t = Some t ->
  (topic_user_id t <> upk ->
   set_subscription b request (topic_pk t) db = (db, inl Http404))
  /\ (topic_user_id t = upk ->
      set_subscription b request (topic_pk t) db =
        (set_topics <[topic_pk t := with_send_response b t]> db,
         inr (Redirect (ToTopic (topic_pk t))))
      /\ forall b',
          set_subscription b' request (topic_pk t)
            (store_after (set_subscription b request (topic_pk t)) db) =
            (set_topics <[topic_pk t := with_send_response b' t]> db,
             inr (Redirect (ToTopic (topic_pk t)))))
  /\ (forall pk,
        topics db !! pk = None ->
        set_subscription b request pk db = (db, inl Http404)).
Proof.
  intros Hu Hst. split; [|split].
  - intros Hother.
    destruct b; simpl;
      unfold subscribe, unsubscribe, login_required, bind,
        get_object_or_404_where, owned_by;
      rewrite Hu; simpl; rewrite Hst; simpl;
      by rewrite bool_decide_eq_false_2 by (intros [= ?]; done).
  - intros Howner. unfold store_after.
    rewrite (set_subscription_owner b request upk t db Hu Hst Howner).
    split; [done|]. intros b'. cbn [fst].
    pose proof (set_subscription_owner b' request upk (with_send_response b t)
                  (set_topics <[topic_pk t := with_send_response b t]> db)
                  Hu) as Hnext.
    simpl in Hnext. rewrite Hnext; [|apply lookup_insert_eq|done].
    f_equal. rewrite set_topics_set_topics. apply set_topics_ext.
    by rewrite insert_insert_eq.
  - intros pk Hnone.
    destruct b; simpl;
      unfold subscribe, unsubscribe, login_required, bind,
        get_object_or_404_where;
      rewrite Hu; simpl; by rewrite Hnone.
Qed.

Lemma subscription_is_owner_only_witness :
  (user (Example.request (User 2) "POST") = User 2 /\
   topics Example.db !! 10%Z = Some Example.topic10) /\
  subscribe (Example.request (User 2) "POST") 10
    (store_after (subscribe (Example.request (User 2) "POST") 10) Example.db)
  = (set_topics <[10%Z := with_send_response true Example.topic10]> Example.db,
     inr (Redirect (ToTopic 10))).
Proof.
  assert (Hst : topics Example.db !! topic_pk Example.topic10
                = Some Example.topic10) by (vm_compute; reflexivity).
  destruct (subscription_is_owner_only true (Example.request (User 2) "POST")
              2%Z Example.topic10 Example.db eq_refl Hst) as (_ & Howner & _).
  split; [by split|].
  exact (proj2 (Howner eq_refl) true).
Defined.

(** ** Deleting a post *)

Section DeletePost.
Context `{Models}.

(** X8: for a logged-in user the delete-post handler answers NotFound for
    a post that does not exist and PermissionDenied, with nothing changed,
    for a user without can_delete; with can_delete it deletes whatever the
    request method is (a GET deletes as well) and whatever becomes of the
    redirect: the store it leaves is the one [Post.delete] leaves. *)
Theorem delete_post_needs_permission (request : Request) (p : Post) (db : DB) :
  is_authenticated (user request) = true ->
  posts db !! post_pk p = Some p ->
  (Post_can_delete db p (user request) = false ->
   delete_post request (post_pk p) db = (db, inl PermissionDenied))
  /\ (Post_can_delete db p (user request) = true ->
      store_after (delete_post request (post_pk p)) db = Post_delete p db)
  /\ (forall pk,
        posts db !! pk = None ->
        delete_post request pk db = (db, inl Http404)).
Proof.
  intros Hauth Hst. split; [|split].
  - unfold delete_post, login_required, bind, get_object_or_404, query.
    rewrite Hauth. simpl. rewrite Hst. simpl. by intros ->.
  - intros Hdel. unfold store_after.
    destruct (topics (Post_delete p db) !! post_topic_id p) as [t'|] eqn:Hl.
    + by rewrite (delete_post_topic_survives request p t' db).
    + by rewrite (delete_post_topic_gone request p db).
  - intros pk Hnone.
    unfold delete_post, login_required, bind, get_object_or_404.
    rewrite Hauth. simpl. by rewrite Hnone.
Qed.

End DeletePost.

Lemma delete_post_needs_permission_witness :
  (is_authenticated (User 1) = true /\
   posts Example.db !! 200%Z = Some Example.post200) /\
  store_after
    (delete_post (H := Example.models) (Example.request (User 1) "GET") 200)
    Example.db = Example.delete_post_row Example.post200 Example.db.
Proof.
  assert (Hst : posts Example.db !! post_pk Example.post200
                = Some Example.post200) by (vm_compute; reflexivity).
  destruct (delete_post_needs_permission (H := Example.models)
              (Example.request (User 1) "GET") Example.post200 Example.db
              eq_refl Hst) as (_ & Hallowed & _).
  split; [by split|]. exact (Hallowed eq_refl).
Defined.

(** ** The form handlers *)

Section Forms.
Context `{Models}.

(** X3: add-topic for a logged-in user.  A forum that does not exist or
    that the user may not see is NotFound; a visible forum the user may not
    post in gives the flash message and a redirect to the forum, and no
    topic; without submitted data the empty form is rendered and the
    validator is not consulted; data the form rejects comes back in the
    rendered form with the store unchanged; only data the form accepts is
    saved, and the answer redirects to the topic the form created. *)
Theorem add_topic_outcomes (request : Request) (forum : Forum) (pk : Z)
    (db : DB) :
  is_authenticated (user request) = true ->
  forums db !! pk = Some forum ->
  (Forum_has_access db forum (user request) = false ->
   add_topic request pk db = (db, inl Http404))
  /\ (Forum_has_access db forum (user request) = true ->
      (Forum_can_post db forum (user request) = false ->
       add_topic request pk db =
         (add_flash
            "You have no permission to add new topic. Maybe you need to approve your email."
            db,
          inr (Redirect (ToForum (forum_pk forum)))))
      /\ (Forum_can_post db forum (user request) = true ->
          (POST_or_None request = None ->
           add_topic request pk db =
             (db, inr (TemplateResponse "djforum/add_topic.html"
                         [("form", VForm None); ("forum", VForum forum)])))
          /\ (forall data,
                POST_or_None request = Some data ->
                add_topic request pk db =
                  if AddTopicForm_is_valid db forum (user request) data
                  then
                    (let (db', topic) :=
                       AddTopicForm_save forum (user request) data db in
                     (db', inr (Redirect (ToTopic (topic_pk topic)))))
                  else
                    (db, inr (TemplateResponse "djforum/add_topic.html"
                                [("form", VForm (Some data));
                                 ("forum", VForum forum)])))))
  /\ (forall pk', forums db !! pk' = None ->
        add_topic request pk' db = (db, inl Http404)).
Proof.
  intros Hauth Hst.
  unfold add_topic, login_required, bind, get_object_or_404, query, execute,
    run, ret, raise.
  rewrite Hauth. simpl. split; [|split].
  - rewrite Hst. simpl. by intros ->.
  - rewrite Hst. simpl. intros ->. simpl. split.
    + by intros ->.
    + intros ->. simpl. split.
      * by intros ->.
      * intros data ->. simpl.
        destruct (AddTopicForm_is_valid _ _ _ _); [|done].
        by destruct (AddTopicForm_save _ _ _ _).
  - by intros pk' ->.
Qed.

(** X4: move-topic for a logged-in user.  Without can_edit the answer is
    NotFound (Http404), not Forbidden, and nothing changes; visibility of
    the topic plays no part.  With can_edit nothing is saved unless data
    was submitted and the form accepts it, in which case the store is the
    one the form's save leaves and the answer redirects to the topic. *)
Theorem move_topic_outcomes (request : Request) (t : Topic) (db : DB) :
  is_authenticated (user request) = true ->
  topics db !! topic_pk t = Some t ->
  (Topic_can_edit db t (user request) = false ->
   move_topic request (topic_pk t) db = (db, inl Http404))
  /\ (Topic_can_edit db t (user request) = true ->
      (forall data,
         POST_or_None request = Some data ->
         MoveTopicForm_is_valid db t data = true ->
         move_topic request (topic_pk t) db =
           (MoveTopicForm_save t data db,
            inr (Redirect (ToTopic (topic_pk t)))))
      /\ (is_valid (MoveTopicForm_is_valid db t) (POST_or_None request) = false ->
          store_after (move_topic request (topic_pk t)) db = db
          /\ forall forum,
              forums db !! topic_forum_id t = Some forum ->
              result_of (move_topic request (topic_pk t)) db =
                inr (TemplateResponse "djforum/move_topic.html"
                       [("form", VForm (POST_or_None request));
                        ("topic", VTopic t); ("forum", VForum forum)]))).
Proof.
  intros Hauth Hst.
  unfold store_after, result_of, move_topic, login_required, bind,
    get_object_or_404, query, execute, ret, raise, Topic_forum, objects_get.
  rewrite Hauth. simpl. rewrite Hst. simpl. split.
  - by intros ->.
  - intros ->. simpl. split.
    + intros data -> Hvalid. simpl. by rewrite Hvalid.
    + intros Hinvalid. rewrite Hinvalid. split.
      * destruct (POST_or_None request);
          by destruct (forums db !! topic_forum_id t).
      * intros forum Hforum.
        destruct (POST_or_None request); by rewrite Hforum.
Qed.

(** X5: add-post for a logged-in user who may see the topic.  Nothing is
    saved unless data was submitted and the form accepts it: otherwise the
    store is unchanged and the form is rendered with the submitted data;
    accepted data is saved by the form and the answer redirects to the new
    post. *)
Theorem add_post_outcomes (request : Request) (t : Topic) (db : DB) :
  is_authenticated (user request) = true ->
  topics db !! topic_pk t = Some t ->
  Topic_has_access db t (user request) = true ->
  (forall data,
     POST_or_None request = Some data ->
     AddPostForm_is_valid db t (user request) data = true ->
     add_post request (topic_pk t) db =
       (let (db', post) := AddPostForm_save t (user request) data db in
        (db', inr (Redirect (ToPost (post_pk post))))))
  /\ (is_valid (AddPostForm_is_valid db t (user request)) (POST_or_None request)
      = false ->
      store_after (add_post request (topic_pk t)) db = db
      /\ forall forum,
          forums db !! topic_forum_id t = Some forum ->
          result_of (add_post request (topic_pk t)) db =
            inr (TemplateResponse "djforum/add_post.html"
                   [("form", VForm (POST_or_None request));
                    ("topic", VTopic t); ("forum", VForum forum)])).
Proof.
  intros Hauth Hst Hacc.
  unfold store_after, result_of, add_post, login_required, bind,
    get_object_or_404, query, execute, run, ret, raise, Topic_forum,
    objects_get.
  rewrite Hauth. simpl. rewrite Hst. simpl. rewrite Hacc. simpl. split.
  - intros data -> Hvalid. simpl. rewrite Hvalid.
    by destruct (AddPostForm_save _ _ _ _).
  - intros Hinvalid. rewrite Hinvalid. split.
    + destruct (POST_or_None request);
        by destruct (forums db !! topic_forum_id t).
    + intros forum Hforum.
      destruct (POST_or_None request); by rewrite Hforum.
Qed.

(** X6: edit-post for a logged-in user, on a post whose topic exists.
    Without can_edit the refusal is soft: a flash message and a redirect to
    the post's topic, the post table untouched.  With can_edit and data the
    form accepts, the post the form returns is saved under its key stamped
    with the time of the request as [updated] and the requesting user as
    [updated_by], and the answer redirects to the post; otherwise nothing
    is saved. *)
Theorem edit_post_outcomes (request : Request) (upk : Z) (p : Post)
    (t : Topic) (db : DB) :
  user request = User upk ->
  posts db !! post_pk p = Some p ->
  topics db !! post_topic_id p = Some t ->
  (Post_can_edit db p (user request) = false ->
   edit_post request (post_pk p) db =
     (add_flash "You have no permission edit this post" db,
      inr (Redirect (ToTopic (topic_pk t)))))
  /\ (Post_can_edit db p (user request) = true ->
      (forall data,
         POST_or_None request = Some data ->
         EditPostForm_is_valid db p data = true ->
         let p' := EditPostForm_save p data in
         let saved :=
           {| post_pk := post_pk p'; post_topic_id := post_topic_id p';
              post_user_id := post_user_id p'; created := created p';
              updated := Some (now request); updated_by := Some upk;
              post_rating := post_rating p'; post_votes := post_votes p' |} in
         edit_post request (post_pk p) db =
           (set_posts <[post_pk p' := saved]> db,
            inr (Redirect (ToPost (post_pk p')))))
      /\ (is_valid (EditPostForm_is_valid db p) (POST_or_None request) = false ->
          store_after (edit_post request (post_pk p)) db = db)).
Proof.
  intros Hu Hst Howner.
  unfold store_after, edit_post, login_required, bind, get_object_or_404,
    query, execute, ret, raise, Post_topic, Post_save, Topic_forum,
    objects_get.
  rewrite Hu. simpl. rewrite Hst. simpl. split.
  - intros ->. simpl. by rewrite Howner.
  - intros ->. simpl. split.
    + intros data -> Hvalid. simpl. by rewrite Hvalid.
    + intros Hinvalid. rewrite Hinvalid.
      destruct (POST_or_None request); rewrite Howner; simpl;
        by destruct (forums db !! topic_forum_id t).
Qed.

End Forms.

Lemma add_topic_outcomes_witness :
  (is_authenticated (User 2) = true /\
   forums Example.db !! 1%Z = Some {| forum_pk := 1; forum_category_id := 1 |})
  /\
  result_of
    (add_topic (H := Cases.models) (Cases.submit (User 2) [("name", "Hello")])
       1) Example.db = inr (Redirect (ToTopic 21)).
Proof.
  assert (Hst : forums Example.db !! 1%Z
                = Some {| forum_pk := 1; forum_category_id := 1 |})
    by (vm_compute; reflexivity).
  destruct (add_topic_outcomes (H := Cases.models)
              (Cases.submit (User 2) [("name", "Hello")]) _ 1 Example.db
              eq_refl Hst) as (_ & Hvisible & _).
  destruct (Hvisible eq_refl) as [_ Hposting].
  destruct (Hposting eq_refl) as [_ Hdata].
  split; [by split|].
  unfold result_of. rewrite (Hdata _ eq_refl). vm_compute. reflexivity.
Defined.

Lemma move_topic_outcomes_witness :
  (is_authenticated (User 1) = true /\
   topics Example.db !! 10%Z = Some Example.topic10) /\
  move_topic (H := Cases.models) (Cases.submit (User 1) [("forum", "2")]) 10
    Example.db =
    (Cases.move Example.topic10 [("forum", "2")] Example.db,
     inr (Redirect (ToTopic 10))).
Proof.
  assert (Hst : topics Example.db !! topic_pk Example.topic10
                = Some Example.topic10) by (vm_compute; reflexivity).
  destruct (move_topic_outcomes (H := Cases.models)
              (Cases.submit (User 1) [("forum", "2")]) Example.topic10
              Example.db eq_refl Hst) as [_ Hallowed].
  destruct (Hallowed eq_refl) as [Hdata _].
  split; [by split|]. exact (Hdata _ eq_refl eq_refl).
Defined.

Lemma add_post_outcomes_witness :
  (is_authenticated (User 2) = true /\
   topics Example.db !! 10%Z = Some Example.topic10 /\
   Topic_has_access (Models := Cases.models) Example.db Example.topic10
     (User 2) = true) /\
  result_of
    (add_post (H := Cases.models) (Cases.submit (User 2) [("body", "text")])
       10) Example.db = inr (Redirect (ToPost 201)).
Proof.
  assert (Hst : topics Example.db !! topic_pk Example.topic10
                = Some Example.topic10) by (vm_compute; reflexivity).
  destruct (add_post_outcomes (H := Cases.models)
              (Cases.submit (User 2) [("body", "text")]) Example.topic10
              Example.db eq_refl Hst eq_refl) as [Hdata _].
  split; [by repeat split|].
  pose proof (Hdata _ eq_refl eq_refl) as Hsaved.
  change (topic_pk Example.topic10) with 10%Z in Hsaved.
  unfold result_of. rewrite Hsaved. vm_compute. reflexivity.
Defined.

Lemma edit_post_outcomes_witness :
  (user (Cases.submit (User 2) [("body", "text")]) = User 2 /\
   posts Example.db !! 100%Z = Some (Example.post 100 10 7) /\
   topics Example.db !! 10%Z = Some Example.topic10) /\
  (fun p => (updated p, updated_by p)) <$>
    posts
      (store_after
         (edit_post (H := Cases.models)
            (Cases.submit (User 2) [("body", "text")]) 100) Example.db)
    !! 100%Z
  = Some (Some 2000%Z, Some 2%Z).
Proof.
  assert (Hst : posts Example.db !! post_pk (Example.post 100 10 7)
                = Some (Example.post 100 10 7)) by (vm_compute; reflexivity).
  assert (Howner : topics Example.db !! post_topic_id (Example.post 100 10 7)
                   = Some Example.topic10) by (vm_compute; reflexivity).
  destruct (edit_post_outcomes (H := Cases.models)
              (Cases.submit (User 2) [("body", "text")]) 2%Z
              (Example.post 100 10 7) Example.topic10 Example.db
              eq_refl Hst Howner) as [_ Hallowed].
  destruct (Hallowed eq_refl) as [Hdata _].
  split; [by repeat split|].
  pose proof (Hdata _ eq_refl eq_refl) as Hsaved.
  change (post_pk (Example.post 100 10 7)) with 100%Z in Hsaved.
  unfold store_after. rewrite Hsaved. vm_compute. reflexivity.
Defined.

(** ** Ordering and the statistics report *)

Section Ordering.
Context {A : Type} (le : A -> A -> bool).

Lemma insert_by_perm (x : A) (l : list A) : insert_by le x l ≡ₚ x :: l.
Proof.
  induction l as [|y l IH]; simpl; [done|].
  destruct (le x y); [done|]. rewrite IH. apply Permutation_swap.
Qed.

Lemma order_by_perm (l : list A) : order_by le l ≡ₚ l.
Proof.
  unfold order_by. induction l as [|x l IH]; simpl; [done|].
  by rewrite insert_by_perm, IH.
Qed.

Hypothesis le_total : forall a b, le a b = false -> le b a = true.
Hypothesis le_trans : forall a b c, le a b = true -> le b c = true -> le a c = true.

Lemma insert_by_sorted (x : A) (l : list A) :
  StronglySorted (fun a b => le a b = true) l ->
  StronglySorted (fun a b => le a b = true) (insert_by le x l).
Proof.
  induction l as [|y l IH]; simpl; intros Hsorted.
  - repeat constructor.
  - apply StronglySorted_cons in Hsorted as [Hy Hl].
    destruct (le x y) eqn:Hxy.
    + apply StronglySorted_cons. split.
      * constructor; [done|].
        eapply Forall_impl; [exact Hy|]. intros z Hyz. by eapply le_trans.
      * by apply StronglySorted_cons.
    + apply StronglySorted_cons. split; [|by apply IH].
      rewrite insert_by_perm. constructor; [by apply le_total | done].
Qed.

Lemma order_by_sorted (l : list A) :
  StronglySorted (fun a b => le a b = true) (order_by le l).
Proof.
  unfold order_by. induction l as [|x l IH]; simpl; [constructor|].
  by apply insert_by_sorted.
Qed.

End Ordering.

Lemma StronglySorted_impl {A} (R1 R2 : A -> A -> Prop) (l : list A) :
  (forall a b, R1 a b -> R2 a b) ->
  StronglySorted R1 l -> StronglySorted R2 l.
Proof.
  intros Himpl. induction l as [|x l IH]; [constructor|].
  rewrite !StronglySorted_cons. intros [Hx Hl]. split; [|by apply IH].
  eapply Forall_impl; [exact Hx|]. intros y. apply Himpl.
Qed.

Lemma top10_by_spec {A} (key : A -> Z) (l : list A) :
  length (top10_by key l) <= 10
  /\ StronglySorted (fun a b => (key b <= key a)%Z) (top10_by key l)
  /\ (forall x, x ∈ top10_by key l -> x ∈ l)
  /\ (forall x y, x ∈ top10_by key l -> y ∈ l -> y ∉ top10_by key l ->
        (key y <= key x)%Z)
  /\ (length l <= 10 -> top10_by key l ≡ₚ l).
Proof.
  unfold top10_by.
  set (le := fun a b : A => (key b <=? key a)%Z).
  assert (Hsorted : StronglySorted (fun a b => (key b <= key a)%Z)
                      (order_by le l)).
  { eapply (StronglySorted_impl (fun a b => le a b = true)).
    - intros a b. unfold le. lia.
    - apply order_by_sorted; unfold le; intros; lia. }
  rewrite <- (take_drop 10 (order_by le l)) in Hsorted.
  apply StronglySorted_app in Hsorted as (Hcross & Htake & _).
  split; [rewrite length_take; lia|]. split; [done|]. split; [|split].
  - intros x Hx. rewrite <- (order_by_perm le l).
    by apply (subseteq_take 10).
  - intros x y Hx Hy Hout. apply Hcross; [done|].
    rewrite <- (order_by_perm le l), <- (take_drop 10 (order_by le l)) in Hy.
    apply elem_of_app in Hy as [Hy|Hy]; [done|done].
  - intros Hshort. rewrite take_ge; [apply order_by_perm|].
    by rewrite (order_by_perm le l).
Qed.

Section Report.

(** X11: with at least one post in the store the statistics handler
    renders its report, unchanged store: the post and topic counts are the
    sizes of the two tables, and the first-post time it reports is the
    creation time of a post of the store that no post of the store
    precedes. *)
Theorem statistic_reports_earliest_post (request : Request) (db : DB) :
  posts db <> ∅ ->
  exists context first,
    statistic request db =
      (db, inr (TemplateResponse "djforum/statistic.html" context))
    /\ ctx_lookup "first_post_created" context = Some (VInt first)
    /\ (exists k p, posts db !! k = Some p /\ created p = first)
    /\ (forall k p, posts db !! k = Some p -> (first <= created p)%Z)
    /\ ctx_lookup "posts_count" context
       = Some (VInt (Z.of_nat (size (posts db))))
    /\ ctx_lookup "topics_count" context
       = Some (VInt (Z.of_nat (size (topics db)))).
Proof.
  intros Hposts. unfold statistic, bind, query, ret, raise.
  set (le := fun a b : Post => (created a <=? created b)%Z).
  pose proof (order_by_perm le (rows (posts db))) as Hperm.
  pose proof (order_by_sorted le
                ltac:(unfold le; intros; lia) ltac:(unfold le; intros; lia)
                (rows (posts db))) as Hsorted.
  destruct (order_by le (rows (posts db))) as [|p0 l] eqn:Hordered.
  - exfalso. apply Permutation_nil in Hperm.
    apply Hposts, map_to_list_empty_iff.
    unfold rows in Hperm. by destruct (map_to_list (posts db)).
  - eexists _, (created p0). split; [reflexivity|].
    split; [reflexivity|]. split; [|split; [|by split]].
    + assert (Hin : p0 ∈ rows (posts db))
        by (rewrite <- Hperm; apply list_elem_of_here).
      apply elem_of_rows in Hin as [k Hk]. by exists k, p0.
    + intros k p Hp.
      assert (Hin : p ∈ p0 :: l)
        by (rewrite Hperm; apply elem_of_rows; by exists k).
      apply StronglySorted_cons in Hsorted as [Hfirst _].
      apply elem_of_cons in Hin as [->|Hin]; [lia|].
      rewrite Forall_forall in Hfirst. specialize (Hfirst p Hin).
      unfold le in Hfirst. lia.
Qed.

(** X12: in the same report the most viewed topics are at most ten rows
    of the topic table, in non-increasing order of views, and no topic
    left off the list has more views than a listed one; with ten topics or
    fewer the list holds them all. *)
Theorem statistic_reports_most_viewed (request : Request) (db : DB) :
  posts db <> ∅ ->
  exists context top,
    statistic request db =
      (db, inr (TemplateResponse "djforum/statistic.html" context))
    /\ ctx_lookup "most_viewed_topics" context = Some (VTopics top)
    /\ length top <= 10
    /\ StronglySorted (fun a b => (views b <= views a)%Z) top
    /\ (forall t, t ∈ top -> exists k, topics db !! k = Some t)
    /\ (forall t k x, topics db !! k = Some t -> t ∉ top -> x ∈ top ->
          (views t <= views x)%Z)
    /\ (size (topics db) <= 10 -> top ≡ₚ rows (topics db)).
Proof.
  intros Hposts.
  destruct (statistic_renders_with_posts request db Hposts) as [context Hrun].
  revert Hrun. unfold statistic, bind, query, ret, raise.
  destruct (order_by _ (rows (posts db))) as [|p0 l]; [discriminate|].
  intros [= <-].
  destruct (top10_by_spec views (rows (topics db)))
    as (Hlen & Hsorted & Hrows & Htop & Hall).
  eexists _, (top10_by views (rows (topics db))).
  split; [reflexivity|]. split; [reflexivity|].
  split; [done|]. split; [done|]. split; [|split].
  - intros t Ht. by apply elem_of_rows, Hrows.
  - intros t k x Ht Hout Hx. apply Htop; [done| |done].
    apply elem_of_rows. by exists k.
  - intros Hsize. apply Hall. unfold rows.
    by rewrite length_fmap, length_map_to_list.
Qed.

End Report.

Lemma statistic_reports_earliest_post_witness :
  posts Example.db <> ∅ /\
  exists context,
    statistic (Example.request AnonymousUser "GET") Example.db =
      (Example.db, inr (TemplateResponse "djforum/statistic.html" context))
    /\ ctx_lookup "first_post_created" context = Some (VInt 7).
Proof.
  assert (Hposts : posts Example.db <> ∅).
  { intros Hnone.
    apply (f_equal (fun m => created <$> m !! 100%Z)) in Hnone.
    vm_compute in Hnone. discriminate. }
  split; [exact Hposts|].
  destruct (statistic_reports_earliest_post
              (Example.request AnonymousUser "GET") Example.db Hposts)
    as (context & first & Hrun & Hfirst & _).
  exists context. split; [exact Hrun|].
  assert (Hcontext :
    ctx_lookup "first_post_created" context = Some (VInt 7)).
  { assert (Hsame : result_of (statistic (Example.request AnonymousUser "GET"))
                      Example.db
                    = inr (TemplateResponse "djforum/statistic.html" context))
      by (unfold result_of; by rewrite Hrun).
    vm_compute in Hsame. injection Hsame as <-. reflexivity. }
  exact Hcontext.
Defined.

Lemma statistic_reports_most_viewed_witness :
  posts Example.db <> ∅ /\
  exists context top,
    statistic (Example.request AnonymousUser "GET") Example.db =
      (Example.db, inr (TemplateResponse "djforum/statistic.html" context))
    /\ ctx_lookup "most_viewed_topics" context = Some (VTopics top)
    /\ top ≡ₚ rows (topics Example.db).
Proof.
  assert (Hposts : posts Example.db <> ∅).
  { intros Hnone.
    apply (f_equal (fun m => created <$> m !! 100%Z)) in Hnone.
    vm_compute in Hnone. discriminate. }
  split; [exact Hposts|].
  destruct (statistic_reports_most_viewed
              (Example.request AnonymousUser "GET") Example.db Hposts)
    as (context & top & Hrun & Htop & _ & _ & _ & _ & Hall).
  exists context, top. split; [exact Hrun|]. split; [exact Htop|].
  apply Hall. vm_compute. lia.
Defined.

(** ** The posts-per-month chart *)

Lemma month_before_irrefl (a : Z * Z) : month_before a a = false.
Proof. unfold month_before. destruct a. simpl. lia. Qed.

Lemma month_before_trans (a b c : Z * Z) :
  month_before a b = true -> month_before b c = true ->
  month_before a c = true.
Proof. unfold month_before. destruct a, b, c. simpl. lia. Qed.

Lemma month_before_total (a b : Z * Z) :
  a <> b -> month_before a b = false -> month_before b a = true.
Proof.
  unfold month_before. destruct a as [y m], b as [y' m']. simpl.
  intros Hne Hnot.
  destruct (decide (y = y')) as [->|]; [|lia].
  destruct (decide (m = m')) as [->|]; [done|lia].
Qed.

Lemma month_count_count_month (k key : Z * Z) (g : list (Z * Z * Z)) :
  month_count k (count_month key g)
  = (month_count k g + if decide (key = k) then 1 else 0)%Z.
Proof.
  induction g as [|[k0 n] g IH]; simpl.
  - destruct (decide (key = k)); lia.
  - destruct (decide (k0 = key)) as [->|Hne]; simpl.
    + destruct (decide (key = k)); lia.
    + destruct (month_before key k0); simpl.
      * destruct (decide (key = k)), (decide (k0 = k)); lia.
      * rewrite IH. destruct (decide (k0 = k)); lia.
Qed.

Lemma count_month_Forall (P : Z * Z * Z -> Prop) (key : Z * Z)
    (g : list (Z * Z * Z)) :
  P (key, 1%Z) ->
  (forall k n, P (k, n) -> P (k, (n + 1)%Z)) ->
  Forall P g -> Forall P (count_month key g).
Proof.
  intros Hnew Hmore. induction g as [|[k0 n] g IH]; simpl; intros Hg.
  - by constructor.
  - apply Forall_cons in Hg as [Hhead Htail].
    destruct (decide (k0 = key)) as [->|Hne].
    + constructor; [by apply Hmore | done].
    + destruct (month_before key k0).
      * by repeat constructor.
      * constructor; [done | by apply IH].
Qed.

Lemma count_month_sorted (key : Z * Z) (g : list (Z * Z * Z)) :
  StronglySorted (fun a b => month_before a.1 b.1 = true) g ->
  StronglySorted (fun a b => month_before a.1 b.1 = true) (count_month key g).
Proof.
  induction g as [|[k0 n] g IH]; simpl; intros Hsorted.
  - repeat constructor.
  - apply StronglySorted_cons in Hsorted as [Hhead Htail].
    destruct (decide (k0 = key)) as [->|Hne].
    + by apply StronglySorted_cons.
    + destruct (month_before key k0) eqn:Hbefore.
      * apply StronglySorted_cons. split; [|by apply StronglySorted_cons].
        constructor; [done|].
        eapply Forall_impl; [exact Hhead|]. intros item Hitem. simpl in *.
        by eapply month_before_trans.
      * apply StronglySorted_cons. split; [|by apply IH].
        apply count_month_Forall; simpl; [|done|done].
        apply month_before_total; [done|done].
Qed.

Section Chart.
Context `{Models}.

(** X13: the chart handler never fails and never changes the store, with
    no posts at all it charts an empty series.  The series it hands to the
    renderer has one entry per month that has a post, in strictly
    increasing order of (year, month), each carrying the number of posts
    created in that month; the x labels are the labels of the entries, in
    the same order. *)
Theorem posts_per_month_chart_groups_posts (request : Request) (db : DB) :
  exists grouped,
    posts_per_month_chart request db =
      (db,
       inr (HttpResponse
              (render_chart "Posts per month" (month_label <$> grouped)
                 "Posts count"
                 ((fun item => (item.2, month_label item)) <$> grouped))
              "image/svg+xml"))
    /\ StronglySorted (fun a b => month_before a.1 b.1 = true) grouped
    /\ Forall (fun item => (1 <= item.2)%Z) grouped
    /\ (forall key,
          month_count key grouped
          = occurrences key
              ((fun p => extract_year_month (created p)) <$> rows (posts db)))
    /\ (posts db = ∅ -> grouped = []).
Proof.
  exists (foldr (fun p acc => count_month (extract_year_month (created p)) acc)
            [] (rows (posts db))).
  split; [reflexivity|].
  split; [|split; [|split]].
  - induction (rows (posts db)) as [|p l IH]; simpl; [constructor|].
    by apply count_month_sorted.
  - induction (rows (posts db)) as [|p l IH]; simpl; [constructor|].
    apply count_month_Forall; simpl; [lia | intros; lia | done].
  - intros key. unfold occurrences.
    induction (rows (posts db)) as [|p l IH]; simpl; [done|].
    rewrite month_count_count_month, IH, filter_cons.
    destruct (decide (extract_year_month (created p) = key)).
    + simpl length. rewrite Nat2Z.inj_succ. reflexivity.
    + rewrite Z.add_0_r. reflexivity.
  - intros Hnone. unfold rows. by rewrite Hnone, map_to_list_empty.
Qed.

End Chart.

(** ** Marking read *)

Lemma set_read_markers_id (db : DB) : set_read_markers (fun m => m) db = db.
Proof. by destruct db. Qed.

Section MarkRead.
Context `{Models}.

(** Marking a forum read never fails and writes read markers only. *)
Lemma mark_read_writes_markers (t : Z) (forum : Forum) (u : RequestUser)
    (db : DB) :
  exists g, mark_read t forum u db = (set_read_markers g db, inr tt).
Proof.
  unfold mark_read, bind at 1, query at 1.
  generalize (Forum_topics forum db). intros ts. revert db.
  induction ts as [|topic ts IH]; intros db; simpl.
  - exists (fun m => m). by rewrite set_read_markers_id.
  - assert (Hbody :
      bind (query (fun db => Topic_has_access db topic u))
        (fun ha => if ha then mark_visited_for t topic u else ret tt) db
      = (if Topic_has_access db topic u
         then set_read_markers <[(user_pk u, topic_pk topic) := t]> db
         else db, inr tt)).
    { unfold bind, query, mark_visited_for, execute, ret.
      by destruct (Topic_has_access db topic u). }
    unfold bind at 1. rewrite Hbody.
    destruct (Topic_has_access db topic u).
    + destruct (IH (set_read_markers <[(user_pk u, topic_pk topic) := t]> db))
        as [g ->].
      by eexists (fun m => g (<[(user_pk u, topic_pk topic) := t]> m)).
    + apply IH.
Qed.

Lemma mark_read_visible_only (request : Request) (db0 : DB)
    (l : list Forum) :
  (forall g db' forum,
     Forum_has_access (set_read_markers g db') forum (user request)
     = Forum_has_access db' forum (user request)) ->
  forall g,
    for_each l (fun forum =>
      bind (query (fun db => Forum_has_access db forum (user request)))
        (fun ha =>
           if ha then mark_read (now request) forum (user request)
           else ret tt))
      (set_read_markers g db0)
    = for_each
        (filter (fun forum => Forum_has_access db0 forum (user request)) l)
        (fun forum => mark_read (now request) forum (user request))
        (set_read_markers g db0).
Proof.
  intros Hstable. induction l as [|forum l IH]; intros g; [done|].
  simpl. rewrite filter_cons. unfold bind at 1. unfold bind at 1, query at 1.
  rewrite Hstable.
  destruct (Forum_has_access db0 forum (user request)); simpl.
  - destruct (mark_read_writes_markers (now request) forum (user request)
                (set_read_markers g db0)) as [g' Hmark].
    unfold bind at 2. rewrite Hmark. apply (IH (fun m => g' (g m))).
  - apply IH.
Qed.

(** X10: marking read never answers NotFound for a forum the user may not
    see.  For a logged-in user whose access to a forum does not depend on
    the read markers, mark-read-forum marks the forum if the user may see
    it, marks nothing if not, and redirects to the forum either way (only a
    forum that does not exist is NotFound); mark-read-all marks exactly the
    forums the user may see, in table order, skips the hidden ones, and
    redirects to the index. *)
Theorem mark_read_skips_hidden_forums (request : Request) (db : DB) :
  is_authenticated (user request) = true ->
  (forall g db' forum,
     Forum_has_access (set_read_markers g db') forum (user request)
     = Forum_has_access db' forum (user request)) ->
  (forall pk forum,
     forums db !! pk = Some forum ->
     mark_read_forum request pk db =
       (if Forum_has_access db forum (user request)
        then store_after (mark_read (now request) forum (user request)) db
        else db,
        inr (Redirect (ToForum (forum_pk forum)))))
  /\ (forall pk,
        forums db !! pk = None ->
        mark_read_forum request pk db = (db, inl Http404))
  /\ mark_read_all request db =
       (store_after
          (for_each
             (filter (fun forum => Forum_has_access db forum (user request))
                (rows (forums db)))
             (fun forum => mark_read (now request) forum (user request)))
          db,
        inr (Redirect ToIndex)).
Proof.
  intros Hauth Hstable. split; [|split].
  - intros pk forum Hst.
    unfold mark_read_forum, login_required, bind, get_object_or_404, query.
    rewrite Hauth. simpl. rewrite Hst. simpl.
    destruct (Forum_has_access db forum (user request)); [|done].
    unfold store_after.
    by destruct (mark_read_writes_markers (now request) forum (user request)
                   db) as [g ->].
  - intros pk Hnone.
    unfold mark_read_forum, login_required, bind, get_object_or_404.
    rewrite Hauth. simpl. by rewrite Hnone.
  - unfold mark_read_all, login_required. rewrite Hauth.
    unfold bind at 1. unfold query at 1. unfold bind at 1.
    pose proof (mark_read_visible_only request db (rows (forums db)) Hstable
                  (fun m => m)) as Hvisible.
    rewrite set_read_markers_id in Hvisible. rewrite Hvisible.
    unfold store_after.
    assert (Hruns : forall l db1,
              exists g,
                for_each l
                  (fun forum => mark_read (now request) forum (user request))
                  db1 = (set_read_markers g db1, inr tt)).
    { induction l as [|forum l IH]; intros db1; simpl.
      - exists (fun m => m). by rewrite set_read_markers_id.
      - unfold bind.
        destruct (mark_read_writes_markers (now request) forum (user request)
                    db1) as [g ->].
        destruct (IH (set_read_markers g db1)) as [g' ->].
        by exists (fun m => g' (g m)). }
    by destruct (Hruns
                   (filter
                      (fun forum => Forum_has_access db forum (user request))
                      (rows (forums db))) db) as [g ->].
Qed.

End MarkRead.

(** User 3 may see forum 1 and not forum 2: marking all read marks topic
    10 of forum 1 and leaves topic 20 of forum 2 unmarked. *)
Lemma mark_read_skips_hidden_forums_witness :
  (is_authenticated (User 3) = true /\
   forall g db' forum,
     Forum_has_access (Models := Example.models) (set_read_markers g db')
       forum (User 3)
     = Forum_has_access (Models := Example.models) db' forum (User 3)) /\
  mark_read_all (H := Example.models) (Example.request (User 3) "POST")
    Example.db =
    (set_read_markers (fun _ => {[ (Some 3%Z, 10%Z) := 1000%Z ]}) Example.db,
     inr (Redirect ToIndex)).
Proof.
  split; [by split|].
  destruct (mark_read_skips_hidden_forums (H := Example.models)
              (Example.request (User 3) "POST") Example.db eq_refl
              (fun _ _ _ => eq_refl)) as (_ & _ & Hall).
  etransitivity; [exact Hall|]. vm_compute. reflexivity.
Defined.

(** ** The list of one's own topics *)

Section MyTopics.
Context `{Models}.

Lemma paginator_page_sub (p : Paginator) (number : Z) (page : list Topic) :
  paginator_page p number = inr page ->
  page ⊆ paginator_object_list p /\ length page <= per_page p.
Proof.
  unfold paginator_page.
  destruct (number <? 1)%Z; [discriminate|].
  destruct (_ && _); [discriminate|].
  intros [= <-]. split.
  - etransitivity; [apply subseteq_take | apply subseteq_drop].
  - rewrite length_take. destruct (_ <=? _) eqn:Hle.
    + apply Nat.leb_le in Hle. lia.
    + lia.
Qed.

(** X14: the my-topics view never changes the store, and whatever page it
    renders for a logged-in user lists only rows of the topic table that
    this user created, at most TOPICS_ON_PAGE of them when pagination is
    on; an unreadable page parameter, or a page number below 1, is
    NotFound. *)
Theorem my_topics_lists_own_topics (request : Request) (upk : Z) (db : DB) :
  user request = User upk ->
  store_after (my_topics request) db = db
  /\ (forall template context listed,
        result_of (my_topics request) db
        = inr (TemplateResponse template context) ->
        ctx_lookup "object_list" context = Some (VTopics listed) ->
        (forall t, t ∈ listed ->
           topic_user_id t = upk /\ exists k, topics db !! k = Some t)
        /\ (TOPICS_ON_PAGE <> 0 -> length listed <= TOPICS_ON_PAGE))
  /\ (TOPICS_ON_PAGE <> 0 ->
      GET_page request = PageInvalid \/
      (exists n, GET_page request = PageNumber n /\ (n < 1)%Z) ->
      result_of (my_topics request) db = inl Http404).
Proof.
  intros Hu.
  unfold store_after, result_of, my_topics, login_required,
    MyTopicsView_get_queryset, ListView_get, default_get_paginator.
  rewrite Hu. simpl. unfold bind, query, ret, raise, lift. simpl.
  set (own := filter (fun t => Some (topic_user_id t) = Some upk)
                (rows (topics db))).
  assert (Hown : forall t, t ∈ own ->
            topic_user_id t = upk /\ exists k, topics db !! k = Some t).
  { intros t Hin. apply list_elem_of_filter in Hin as [Howner Hrow].
    split; [congruence|]. by apply elem_of_rows. }
  destruct TOPICS_ON_PAGE as [|size] eqn:Hsize; simpl.
  - split; [done|]. split; [|done].
    intros template context listed [= <- <-]. simpl. intros [= <-].
    split; [exact Hown | done].
  - set (paginator := {| paginator_object_list := own; per_page := S size;
                         _count := None |}).
    split; [|split].
    + destruct (GET_page request); simpl; by repeat case_match.
    + intros template context listed Hrun Hlisted.
      assert (Hpage : exists number,
                paginator_page paginator number = inr listed).
      { destruct (GET_page request) as [|n| |]; simpl in Hrun;
          try discriminate.
        - exists 1%Z. destruct (paginator_page paginator 1); [discriminate|].
          injection Hrun as <- <-. simpl in Hlisted. by injection Hlisted as <-.
        - exists n. destruct (paginator_page paginator n); [discriminate|].
          injection Hrun as <- <-. simpl in Hlisted. by injection Hlisted as <-.
        - exists (Z.of_nat (num_pages paginator)).
          destruct (paginator_page paginator _); [discriminate|].
          injection Hrun as <- <-. simpl in Hlisted. by injection Hlisted as <-. }
      destruct Hpage as [number Hpage].
      apply paginator_page_sub in Hpage as [Hsub Hlen]. split.
      * intros t Hin. apply Hown. by apply Hsub.
      * done.
    + intros _ [->|[n [-> Hn]]]; simpl; [done|].
      unfold paginator_page. by rewrite (proj2 (Z.ltb_lt n 1) Hn).
Qed.

End MyTopics.

Lemma my_topics_lists_own_topics_witness :
  user (Cases.page (User 2) 2) = User 2 /\
  exists listed,
    result_of (my_topics (H := Cases.models) (Cases.page (User 2) 2)) Cases.db
    = inr (TemplateResponse "djforum/my_topics.html"
             [("paginator", VPaginator 2 2); ("is_paginated", VBool true);
              ("object_list", VTopics listed)])
    /\ length listed = 1
    /\ forall t, t ∈ listed -> topic_user_id t = 2%Z.
Proof.
  split; [reflexivity|].
  destruct (my_topics_lists_own_topics (H := Cases.models)
              (Cases.page (User 2) 2) 2%Z Cases.db eq_refl) as (_ & Hown & _).
  eexists. split; [vm_compute; reflexivity|]. split; [reflexivity|].
  intros t Hin.
  refine (proj1 (proj1 (Hown _ _ _ _ _) t Hin));
    [vm_compute; reflexivity | reflexivity].
Defined.

(** ** Missing rows *)

Section Missing.
Context `{Models}.

(** X15: every view that takes a primary key looks the row up first: when
    the row does not exist the answer is NotFound and the store is
    unchanged, whatever the user's permissions and whatever was submitted.
    This holds for every user on the views without login wrapper, and for
    every logged-in user on the wrapped ones. *)
Theorem missing_row_is_not_found (v : View) (request : Request) (db : DB) :
  is_authenticated (user request) = true \/ login_wrapped v = false ->
  names_missing_row v db ->
  handle v request db = (db, inl Http404).
Proof.
  intros Hreach Hmissing.
  assert (Hlogin : forall view : M Response,
            login_wrapped v = true ->
            login_required request view = view).
  { intros view Hwrapped. unfold login_required.
    destruct Hreach as [->|Hfree]; [done|congruence]. }
  destruct v as [| | | | | | | | | | | | | | | | | |pk []| |];
    simpl in Hmissing; try done; simpl;
    unfold forum_page, topic_page, mark_read_forum, add_topic, move_topic,
      add_post, edit_post, subscribe, unsubscribe, heresy_unheresy_topic,
      close_open_topic, stick_unstick_topic, delete_topic, delete_post, vote,
      get_votable_or_404;
    rewrite ?Hlogin by done;
    unfold bind, get_object_or_404, get_object_or_404_where, query;
    simpl; by rewrite Hmissing.
Qed.

End Missing.

Lemma missing_row_is_not_found_witness :
  (is_authenticated (User 1) = true /\
   names_missing_row (CloseOpenView 77) Example.db) /\
  handle (H := Example.models) (CloseOpenView 77)
    (Example.request (User 1) "POST") Example.db = (Example.db, inl Http404).
Proof.
  assert (Hmissing : names_missing_row (CloseOpenView 77) Example.db)
    by (vm_compute; reflexivity).
  split; [by split|].
  exact (missing_row_is_not_found (H := Example.models) (CloseOpenView 77)
           (Example.request (User 1) "POST") Example.db (or_introl eq_refl)
           Hmissing).
Defined.

(** ** The unread listing and its count *)

Section Unread.
Context `{Models}.

Lemma count_is_length_of_filter (A B : Topic -> bool) (l : list (Z * Topic)) :
  foldr (uncurry (fun (_ : Z) topic n =>
                    if A topic then (if B topic then S n else n) else n)) 0 l
  = length (filter (fun topic => B topic && A topic) (l.*2)).
Proof.
  induction l as [|[k t] l IH]; [done|].
  simpl. rewrite filter_cons, IH.
  destruct (A t), (B t); reflexivity.
Qed.

Lemma unread_count_length (u : RequestUser) (db : DB) :
  Topic_objects_unread_count u db = length (Topic_objects_unread u db).
Proof.
  unfold Topic_objects_unread_count, Topic_objects_unread, rows.
  rewrite map_fold_foldr. apply count_is_length_of_filter.
Qed.

(** What a list view with the paginator's own count shows: the count of
    the whole list, and a part of the list. *)
Lemma ListView_get_default (request : Request) (template_name : string)
    (paginate_by : nat) (queryset : list Topic) (db : DB) (template : string)
    (context : list (string * CtxVal)) :
  result_of
    (ListView_get request template_name paginate_by queryset
       default_get_paginator) db
  = inr (TemplateResponse template context) ->
  (forall count pages,
     ctx_lookup "paginator" context = Some (VPaginator count pages) ->
     count = length queryset)
  /\ (forall listed,
        ctx_lookup "object_list" context = Some (VTopics listed) ->
        listed ⊆ queryset).
Proof.
  unfold result_of, ListView_get, default_get_paginator, bind, ret, raise,
    lift.
  destruct paginate_by as [|size]; simpl.
  - intros [= <- <-]. simpl. split; [done|]. by intros listed [= <-].
  - set (paginator := {| paginator_object_list := queryset;
                         per_page := S size; _count := None |}).
    intros Hrun.
    assert (Hpage : exists number page,
              paginator_page paginator number = inr page
              /\ context =
                   [("paginator",
                     VPaginator (paginator_count paginator)
                       (num_pages paginator));
                    ("is_paginated", VBool (1 <? num_pages paginator));
                    ("object_list", VTopics page)]).
    { destruct (GET_page request) as [|n| |]; simpl in Hrun;
        try discriminate.
      - exists 1%Z. destruct (paginator_page paginator 1) as [|page];
          [discriminate|]. injection Hrun as <- <-. by exists page.
      - exists n. destruct (paginator_page paginator n) as [|page];
          [discriminate|]. injection Hrun as <- <-. by exists page.
      - exists (Z.of_nat (num_pages paginator)).
        destruct (paginator_page paginator _) as [|page]; [discriminate|].
        injection Hrun as <- <-. by exists page. }
    destruct Hpage as (number & page & Hpage & ->). simpl. split.
    + by intros count pages [= <- _].
    + intros listed [= <-].
      by apply (paginator_page_sub paginator number page).
Qed.

(** C6: for every logged-in user and at one and the same store, the unread
    view lists what unread yields and counts with unread_count, and the two
    agree: unread_count equals the number of items of unread, so the view
    answers exactly as it would with the count taken from its own list;
    whatever page it renders, the total it shows is the length of the
    unread list and the topics it lists are among those of the unread
    list. *)
Theorem unread_count_is_length_of_unread (request : Request) (db : DB) :
  is_authenticated (user request) = true ->
  Topic_objects_unread_count (user request) db
  = length (Topic_objects_unread (user request) db)
  /\ UnreadView_get_queryset request db
     = (db, inr (Topic_objects_unread (user request) db))
  /\ unread_topics request db =
       ListView_get request "djforum/unread_topics.html" TOPICS_ON_PAGE
         (Topic_objects_unread (user request) db) default_get_paginator db
  /\ (forall template context,
        result_of (unread_topics request) db
        = inr (TemplateResponse template context) ->
        (forall count pages,
           ctx_lookup "paginator" context = Some (VPaginator count pages) ->
           count = Topic_objects_unread_count (user request) db
           /\ count = length (Topic_objects_unread (user request) db))
        /\ (forall listed,
              ctx_lookup "object_list" context = Some (VTopics listed) ->
              listed ⊆ Topic_objects_unread (user request) db)).
Proof.
  intros Hauth.
  pose proof (unread_count_length (user request) db) as Hcount.
  assert (Hview :
    unread_topics request db =
      ListView_get request "djforum/unread_topics.html" TOPICS_ON_PAGE
        (Topic_objects_unread (user request) db) default_get_paginator db).
  { unfold unread_topics, login_required. rewrite Hauth.
    unfold bind at 1. unfold UnreadView_get_queryset at 1, query at 1.
    unfold ListView_get. destruct TOPICS_ON_PAGE as [|size]; [done|].
    unfold bind at 1. unfold bind at 3.
    unfold UnreadView_get_paginator, default_get_paginator, bind, query, ret.
    simpl. rewrite Hcount.
    unfold num_pages, paginator_page, num_pages, paginator_count. simpl.
    reflexivity. }
  split; [exact Hcount|]. split; [reflexivity|]. split; [exact Hview|].
  intros template context Hrun. unfold result_of in Hrun.
  rewrite Hview in Hrun.
  destruct (ListView_get_default _ _ _ _ _ _ _ Hrun) as [Hshown Hlisted].
  split; [|exact Hlisted].
  intros count pages Hpaginator. rewrite Hcount.
  split; by apply (Hshown count pages).
Qed.

End Unread.

(** User 1 may see all three topics of the forum and has read none: the
    second page of the unread view shows a total of 3 beside one topic. *)
Lemma unread_count_is_length_of_unread_witness :
  is_authenticated (User 1) = true /\
  Topic_objects_unread_count (H := Cases.models) (User 1) Cases.db = 3 /\
  exists listed,
    result_of (unread_topics (H := Cases.models) (Cases.page (User 1) 2))
      Cases.db
    = inr (TemplateResponse "djforum/unread_topics.html"
             [("paginator", VPaginator 3 3); ("is_paginated", VBool true);
              ("object_list", VTopics listed)])
    /\ length listed = 1
    /\ listed ⊆ Topic_objects_unread (H := Cases.models) (User 1) Cases.db.
Proof.
  destruct (unread_count_is_length_of_unread (H := Cases.models)
              (Cases.page (User 1) 2) Cases.db eq_refl)
    as (Hcount & _ & _ & Hshown).
  split; [reflexivity|]. split.
  - etransitivity; [exact Hcount|]. vm_compute. reflexivity.
  - eexists. split; [vm_compute; reflexivity|]. split; [reflexivity|].
    refine (proj2 (Hshown _ _ _) _ _); [vm_compute; reflexivity|reflexivity].
Defined.

(** ** Deleting a post whose topic stays *)

Section DeletePostRedirect.
Context `{Models}.

(** X16: for a logged-in user with can_delete, when the Post's Topic is
    still in the store that [Post.delete] leaves, the delete-post handler
    answers with the redirect to that Topic, whatever the request
    method. *)
Theorem delete_post_redirects_to_surviving_topic (request : Request)
    (p : Post) (db : DB) :
  is_authenticated (user request) = true ->
  posts db !! post_pk p = Some p ->
  Post_can_delete db p (user request) = true ->
  forall t',
    topics (Post_delete p db) !! post_topic_id p = Some t' ->
    delete_post request (post_pk p) db =
      (Post_delete p db, inr (Redirect (ToTopic (topic_pk t')))).
Proof.
  intros Hauth Hst Hdel t' Hstill. by apply delete_post_topic_survives.
Qed.

End DeletePostRedirect.

(** Topic 10 keeps post 101 when post 100 is deleted. *)
Lemma delete_post_redirects_to_surviving_topic_witness :
  (is_authenticated (User 1) = true /\
   posts Example.db !! 100%Z = Some (Example.post 100 10 7) /\
   topics (Example.delete_post_row (Example.post 100 10 7) Example.db)
     !! 10%Z = Some Example.topic10) /\
  delete_post (H := Example.models) (Example.request (User 1) "POST") 100
    Example.db =
    (Example.delete_post_row (Example.post 100 10 7) Example.db,
     inr (Redirect (ToTopic 10))).
Proof.
  assert (Hst : posts Example.db !! post_pk (Example.post 100 10 7)
                = Some (Example.post 100 10 7)) by (vm_compute; reflexivity).
  assert (Hstill :
    topics (Example.delete_post_row (Example.post 100 10 7) Example.db)
      !! 10%Z = Some Example.topic10) by (vm_compute; reflexivity).
  split; [by repeat split|].
  exact (delete_post_redirects_to_surviving_topic (H := Example.models)
           (Example.request (User 1) "POST") (Example.post 100 10 7)
           Example.db eq_refl Hst eq_refl Example.topic10 Hstill).
Defined.
